(** * Chat relay server ([src/server.js]): a shallow embedding and its properties

    The Express application in [src/server.js] forwards chat requests to a
    local Ollama server.  This development embeds its seven routes
    ([/api/health], [/api/check-ollama], [/api/chat], [/api/chat/stream],
    [/api/chat/multimodal], [/api/model-info], [/api/switch-model]) as
    programs of a small state-and-exception monad over the response object,
    the upstream server and the process configuration.

    Conventions.
    - A JavaScript string is represented by the bytes of its UTF-8 encoding,
      as a [string].  [Buffer.toString()] and [res.write(string)] are then the
      identity on well-formed text, and [===], [includes] and truthiness of
      strings read the same on bytes as on code units.
    - JSON documents (request and response bodies, the lines of the upstream
      stream) are values of [JsValue]; [JSON.parse] is the recursive-descent
      parser [JSON_parse] of the JSON grammar.
    - Request bodies are taken well typed for the fields the handlers read
      (a text message, a list of image descriptors, a list of turns).
    - [console.log] and [console.error] have no effect on a response and are
      left out. *)

From Stdlib Require Import String Ascii List Bool Arith ZArith NArith Lia.
From Stdlib Require Import DecimalString.
Import ListNotations.

Set Warnings "-register-all".

Local Open Scope list_scope.
Local Open Scope string_scope.

(** ** Characters and strings *)

Module Chars.

Definition quote : ascii := "034"%char.
Definition backslash : ascii := "092"%char.
Definition newline : ascii := "010"%char.

Definition code (c : ascii) : N := N_of_ascii c.

(** The text of a decimal number, as a template literal prints
    [images.length] or [index + 1]. *)
Definition decimal (n : nat) : string := NilEmpty.string_of_uint (Nat.to_uint n).

(** [wire s] is [s] with every apostrophe replaced by a double quote: JSON
    text is written with apostrophes in the examples below. *)
Fixpoint wire (s : string) : string :=
  match s with
  | EmptyString => EmptyString
  | String c r => String (if (c =? "'")%char then quote else c) (wire r)
  end.

(** [s.split('\n')]: the pieces between newline characters; a string with
    [n] newlines has [n + 1] pieces. *)
Fixpoint split_lines_from (cur : string) (s : string) : list string :=
  match s with
  | EmptyString => [cur]
  | String c r =>
      if (c =? newline)%char then cur :: split_lines_from EmptyString r
      else split_lines_from (cur ++ String c EmptyString) r
  end.

Definition split_lines (s : string) : list string := split_lines_from EmptyString s.

Fixpoint has_newline (s : string) : bool :=
  match s with
  | EmptyString => false
  | String c r => (c =? newline)%char || has_newline r
  end.

(** [haystack.includes(needle)] *)
Fixpoint includes (haystack needle : string) : bool :=
  String.prefix needle haystack ||
  match haystack with
  | EmptyString => false
  | String _ r => includes r needle
  end.

(** White space of [String.prototype.trim] (WhiteSpace and LineTerminator of
    ECMAScript), on UTF-8 bytes: one-byte characters U+0009..U+000D and
    U+0020; two bytes U+00A0; three bytes U+1680, U+2000..U+200A, U+2028,
    U+2029, U+202F, U+205F, U+3000 and U+FEFF. *)
Definition ws1 (c : ascii) : bool :=
  let n := code c in ((9 <=? n) && (n <=? 13))%N || (n =? 32)%N.

Definition ws2 (c1 c2 : ascii) : bool :=
  ((code c1 =? 0xC2) && (code c2 =? 0xA0))%N.

Definition ws3 (c1 c2 c3 : ascii) : bool :=
  let a := code c1 in let b := code c2 in let c := code c3 in
  ((a =? 0xE1) && (b =? 0x9A) && (c =? 0x80))%N
  || ((a =? 0xE2) && (b =? 0x80)
        && (((0x80 <=? c) && (c <=? 0x8A)) || (c =? 0xA8) || (c =? 0xA9) || (c =? 0xAF)))%N
  || ((a =? 0xE2) && (b =? 0x81) && (c =? 0x9F))%N
  || ((a =? 0xE3) && (b =? 0x80) && (c =? 0x80))%N
  || ((a =? 0xEF) && (b =? 0xBB) && (c =? 0xBF))%N.

(** [is_blank s] holds when [s.trim()] is the empty string. *)
Fixpoint is_blank (s : string) : bool :=
  match s with
  | EmptyString => true
  | String c1 r1 =>
      if ws1 c1 then is_blank r1
      else match r1 with
           | EmptyString => false
           | String c2 r2 =>
               if ws2 c1 c2 then is_blank r2
               else match r2 with
                    | EmptyString => false
                    | String c3 r3 => if ws3 c1 c2 c3 then is_blank r3 else false
                    end
           end
  end.

(** The UTF-8 encoding of a code point below 0x110000. *)
Definition utf8 (cp : N) : string :=
  let b (n : N) := String (ascii_of_N n) EmptyString in
  (if cp <? 0x80 then b cp
   else if cp <? 0x800 then b (0xC0 + cp / 64) ++ b (0x80 + cp mod 64)
   else if cp <? 0x10000 then
     b (0xE0 + cp / 4096) ++ b (0x80 + (cp / 64) mod 64) ++ b (0x80 + cp mod 64)
   else
     b (0xF0 + cp / 262144) ++ b (0x80 + (cp / 4096) mod 64)
       ++ b (0x80 + (cp / 64) mod 64) ++ b (0x80 + cp mod 64))%N.

End Chars.
Import Chars.

(** ** JavaScript values *)

(** The values JSON text denotes, and [undefined] for an absent property.
    A number [JNumber m e] is [m * 10^e]; an object keeps its members in
    source order, a later member of the same key shadowing an earlier one. *)
Inductive JsValue : Type :=
| JUndefined
| JNull
| JBool (b : bool)
| JNumber (m e : Z)
| JString (s : string)
| JArray (items : list JsValue)
| JObject (members : list (string * JsValue)).

Module Js.

(** A double is zero when the literal's value is zero or rounds to zero
    (at most 2^-1075 in magnitude). *)
Definition number_is_zero (m e : Z) : bool :=
  ((m =? 0) || ((e <? 0) && (Z.abs m * 2 ^ 1075 <=? 10 ^ (- e))))%Z.

(** ToBoolean *)
Definition truthy (v : JsValue) : bool :=
  match v with
  | JUndefined | JNull => false
  | JBool b => b
  | JNumber m e => negb (number_is_zero m e)
  | JString s => negb (s =? EmptyString)
  | JArray _ | JObject _ => true
  end.

(** The member of key [k], the last one when the key is repeated. *)
Fixpoint lookup (k : string) (members : list (string * JsValue)) : option JsValue :=
  match members with
  | [] => None
  | (k', v) :: rest =>
      match lookup k rest with
      | Some later => Some later
      | None => if k =? k' then Some v else None
      end
  end.

Definition number_of_nat (n : nat) : JsValue := JNumber (Z.of_nat n) 0.

End Js.

(** ** [JSON.parse] *)

(** A recursive-descent parser of the JSON grammar (ECMA-404), the grammar
    [JSON.parse] accepts: [None] stands for the [SyntaxError] it throws.
    Nesting is bounded by a fuel that the length of the text always covers. *)
Module Json.

Definition is_ws (c : ascii) : bool :=
  let n := code c in ((n =? 32) || (n =? 9) || (n =? 10) || (n =? 13))%N.

Fixpoint skip_ws (s : string) : string :=
  match s with
  | EmptyString => s
  | String c r => if is_ws c then skip_ws r else s
  end.

Definition digit (c : ascii) : option Z :=
  let n := code c in
  if ((48 <=? n) && (n <=? 57))%N then Some (Z.of_N (n - 48)) else None.

Definition hex_digit (c : ascii) : option N :=
  let n := code c in
  (if (48 <=? n) && (n <=? 57) then Some (n - 48)
   else if (65 <=? n) && (n <=? 70) then Some (n - 55)
   else if (97 <=? n) && (n <=? 102) then Some (n - 87)
   else None)%N.

Fixpoint strip_prefix (p s : string) : option string :=
  match p, s with
  | EmptyString, _ => Some s
  | String a p', String b s' => if (a =? b)%char then strip_prefix p' s' else None
  | String _ _, EmptyString => None
  end.

(** The longest run of digits at the head of [s], added to [acc] in base
    ten, with the number of digits read. *)
Fixpoint digits (s : string) (acc count : Z) : Z * Z * string :=
  match s with
  | EmptyString => (acc, count, s)
  | String c r =>
      match digit c with
      | Some d => digits r (acc * 10 + d) (count + 1)
      | None => (acc, count, s)
      end
  end.

Definition fraction (int : Z) (s : string) : option (Z * Z * string) :=
  match s with
  | String c r =>
      if (c =? ".")%char then
        let '(m, n, rest) := digits r int 0 in
        if (n =? 0)%Z then None else Some (m, n, rest)
      else Some (int, 0%Z, s)
  | EmptyString => Some (int, 0%Z, s)
  end.

Definition exponent (s : string) : option (Z * string) :=
  match s with
  | String c r =>
      if ((c =? "e") || (c =? "E"))%char then
        let '(negative, r1) :=
          match r with
          | String sg r' =>
              if (sg =? "-")%char then (true, r')
              else if (sg =? "+")%char then (false, r')
              else (false, r)
          | EmptyString => (false, r)
          end in
        let '(x, n, rest) := digits r1 0 0 in
        if (n =? 0)%Z then None
        else Some ((if negative then - x else x)%Z, rest)
      else Some (0%Z, s)
  | EmptyString => Some (0%Z, s)
  end.

(** A number: an optional minus sign, an integer part without a leading
    zero (or a single zero), an optional fraction of at least one digit, an
    optional exponent of at least one digit. *)
Definition parse_number (s : string) : option (JsValue * string) :=
  let '(negative, s1) :=
    match s with
    | String c r => if (c =? "-")%char then (true, r) else (false, s)
    | EmptyString => (false, s)
    end in
  match s1 with
  | EmptyString => None
  | String c r =>
      match digit c with
      | None => None
      | Some d =>
          let '(int, _, s2) := if (d =? 0)%Z then (0%Z, 1%Z, r) else digits r d 1 in
          match fraction int s2 with
          | None => None
          | Some (m, places, s3) =>
              match exponent s3 with
              | None => None
              | Some (e, s4) =>
                  Some (JNumber (if negative then - m else m) (e - places), s4)
              end
          end
      end
  end.

Definition hex4 (s : string) : option (N * string) :=
  match s with
  | String a (String b (String c (String d r))) =>
      match hex_digit a, hex_digit b, hex_digit c, hex_digit d with
      | Some x, Some y, Some z, Some w => Some ((((x * 16 + y) * 16 + z) * 16 + w)%N, r)
      | _, _, _, _ => None
      end
  | _ => None
  end.

Definition is_high_surrogate (u : N) : bool := ((0xD800 <=? u) && (u <=? 0xDBFF))%N.
Definition is_low_surrogate (u : N) : bool := ((0xDC00 <=? u) && (u <=? 0xDFFF))%N.

(** The text after [\u]: four hexadecimal digits give a UTF-16 code unit.  A
    high surrogate directly followed by an escaped low surrogate is one code
    point; a surrogate on its own is written to a socket as U+FFFD, which is
    what it is given as here. *)
Definition parse_unicode_escape (s : string) : option (string * string) :=
  match hex4 s with
  | None => None
  | Some (u, r) =>
      if is_high_surrogate u then
        match r with
        | String b (String x r') =>
            if ((b =? backslash) && (x =? "u"))%char then
              match hex4 r' with
              | Some (l, r'') =>
                  if is_low_surrogate l
                  then Some (utf8 (0x10000 + (u - 0xD800) * 0x400 + (l - 0xDC00))%N, r'')
                  else Some (utf8 0xFFFD, r)
              | None => Some (utf8 0xFFFD, r)
              end
            else Some (utf8 0xFFFD, r)
        | _ => Some (utf8 0xFFFD, r)
        end
      else if is_low_surrogate u then Some (utf8 0xFFFD, r)
      else Some (utf8 u, r)
  end.

Definition simple_escape (c : ascii) : option ascii :=
  if (c =? quote)%char then Some quote
  else if (c =? backslash)%char then Some backslash
  else if (c =? "/")%char then Some "/"%char
  else if (c =? "b")%char then Some "008"%char
  else if (c =? "f")%char then Some "012"%char
  else if (c =? "n")%char then Some "010"%char
  else if (c =? "r")%char then Some "013"%char
  else if (c =? "t")%char then Some "009"%char
  else None.

(** The characters of a string literal after its opening quote, up to the
    closing one. *)
Fixpoint parse_chars (fuel : nat) (s acc : string) : option (string * string) :=
  match fuel with
  | O => None
  | S fuel' =>
      match s with
      | EmptyString => None
      | String c r =>
          if (c =? quote)%char then Some (acc, r)
          else if (c =? backslash)%char then
            match r with
            | EmptyString => None
            | String e r' =>
                if (e =? "u")%char then
                  match parse_unicode_escape r' with
                  | Some (t, r'') => parse_chars fuel' r'' (acc ++ t)
                  | None => None
                  end
                else
                  match simple_escape e with
                  | Some x => parse_chars fuel' r' (acc ++ String x EmptyString)
                  | None => None
                  end
            end
          else if (code c <? 0x20)%N then None
          else parse_chars fuel' r (acc ++ String c EmptyString)
      end
  end.

Definition parse_string (s : string) : option (string * string) :=
  parse_chars (String.length s) s EmptyString.

Section Containers.

(** The parser of the values inside an array or an object. *)
Variable parse_inner : string -> option (JsValue * string).

(** The elements of an array after its opening bracket: values separated
    by commas, up to the closing bracket. *)
Fixpoint parse_elements (n : nat) (s : string) (acc : list JsValue)
  : option (JsValue * string) :=
  match n with
  | O => None
  | S n' =>
      match parse_inner s with
      | None => None
      | Some (v, r) =>
          match skip_ws r with
          | EmptyString => None
          | String c r' =>
              if (c =? ",")%char then parse_elements n' r' (acc ++ [v])%list
              else if (c =? "]")%char then Some (JArray (acc ++ [v])%list, r')
              else None
          end
      end
  end.

(** The members of an object after its opening brace: [key : value]
    pairs separated by commas, up to the closing brace. *)
Fixpoint parse_members (n : nat) (s : string) (acc : list (string * JsValue))
  : option (JsValue * string) :=
  match n with
  | O => None
  | S n' =>
      match skip_ws s with
      | EmptyString => None
      | String q r =>
          if (q =? quote)%char then
            match parse_string r with
            | None => None
            | Some (k, r1) =>
                match skip_ws r1 with
                | EmptyString => None
                | String colon r2 =>
                    if (colon =? ":")%char then
                      match parse_inner r2 with
                      | None => None
                      | Some (v, r3) =>
                          match skip_ws r3 with
                          | EmptyString => None
                          | String c r4 =>
                              if (c =? ",")%char
                              then parse_members n' r4 (acc ++ [(k, v)])%list
                              else if (c =? "}")%char
                              then Some (JObject (acc ++ [(k, v)])%list, r4)
                              else None
                          end
                      end
                    else None
                end
            end
          else None
      end
  end.

End Containers.

(** The first character of a value. *)
Definition starts_value (c : ascii) : bool :=
  ((c =? "{") || (c =? "[") || (c =? quote) || (c =? "t") || (c =? "f")
   || (c =? "n") || (c =? "-"))%char
  || match digit c with Some _ => true | None => false end.

Fixpoint parse_value (fuel : nat) (s : string) : option (JsValue * string) :=
  match fuel with
  | O => None
  | S fuel' =>
      match skip_ws s with
      | EmptyString => None
      | String c r =>
          if negb (starts_value c) then None
          else if (c =? "{")%char then
            match skip_ws r with
            | String c' r' =>
                if (c' =? "}")%char then Some (JObject [], r')
                else parse_members (parse_value fuel') (String.length r) r []
            | EmptyString => None
            end
          else if (c =? "[")%char then
            match skip_ws r with
            | String c' r' =>
                if (c' =? "]")%char then Some (JArray [], r')
                else parse_elements (parse_value fuel') (String.length r) r []
            | EmptyString => None
            end
          else if (c =? quote)%char then
            match parse_string r with
            | Some (t, r') => Some (JString t, r')
            | None => None
            end
          else if (c =? "t")%char then
            option_map (pair (JBool true)) (strip_prefix "rue" r)
          else if (c =? "f")%char then
            option_map (pair (JBool false)) (strip_prefix "alse" r)
          else if (c =? "n")%char then
            option_map (pair JNull) (strip_prefix "ull" r)
          else parse_number (String c r)
      end
  end.

(** [JSON.parse(text)]: one value, white space around it, nothing else. *)
Definition JSON_parse (text : string) : option JsValue :=
  match parse_value (S (String.length text)) text with
  | Some (v, rest) =>
      match skip_ws rest with
      | EmptyString => Some v
      | String _ _ => None
      end
  | None => None
  end.

End Json.
Import Json.

(** ** The world a handler runs in *)

(** An error object: [error.code], [error.response] (status and data of a
    reply outside 2xx) and [error.message]. *)
Module Error.
Record JsError : Type :=
  { code : option string;
    response : option (nat * JsValue);
    message : string }.

(** A [TypeError] of the engine; the wording follows V8 and no handler
    branches on it. *)
Definition TypeError (text : string) : JsError :=
  {| code := None; response := None; message := text |}.

Definition SyntaxError (text : string) : JsError :=
  {| code := None; response := None; message := text |}.
End Error.
Abbreviation JsError := Error.JsError.

(** The readable stream [response.data] of a streaming call, as the events
    it emits: ['data'] chunks in order (already decoded to text), then
    ['end'], ['error'], or nothing yet. *)
Inductive Closing : Type :=
| EndEvent
| ErrorEvent (error : JsError)
| NoEvent.

Record Feed : Type :=
  { emitted : list string;
    closing : Closing }.

(** One call of the HTTP client. *)
Inductive Method : Type := GET | POST.

Record Call : Type :=
  { method : Method;
    url : string;
    payload : option JsValue;
    responseType_stream : bool;
    timeout : option N }.

(** What becomes of the promise of a call: it is resolved, it is rejected,
    or it is never settled, as when the upstream accepts the connection and
    says nothing and the call was made without a timeout. *)
Inductive Reply (A : Type) : Type :=
| Resolve (data : A)
| Reject (error : JsError)
| Pending.
Arguments Resolve {A} data.
Arguments Reject {A} error.
Arguments Pending {A}.

(** The upstream server seen through axios: [response.data] is a parsed
    document, or a stream when the call asks for [responseType: 'stream']. *)
Record Upstream : Type :=
  { answer : Call -> Reply JsValue;
    answer_stream : Call -> Reply Feed }.

(** The module-level constants read from the environment at start-up. *)
Record Config : Type :=
  { OLLAMA_BASE_URL : string;
    MODEL_NAME : string }.

(** [process.env.NAME || fallback] *)
Definition env_or (value : option string) (fallback : string) : string :=
  match value with
  | Some v => if v =? EmptyString then fallback else v
  | None => fallback
  end.

Definition load_config (env : string -> option string) : Config :=
  {| OLLAMA_BASE_URL := env_or (env "OLLAMA_BASE_URL") "http://localhost:11434";
     MODEL_NAME := env_or (env "MODEL_NAME") "gemma3:1b" |}.

(** The response object [res]: status, headers, the chunks written to the
    body so far, the document sent by [res.json], and whether the response
    has been ended. *)
Record Response : Type :=
  { statusCode : nat;
    headers : list (string * string);
    chunks : list string;
    json : option JsValue;
    ended : bool }.

Definition fresh_response : Response :=
  {| statusCode := 200; headers := []; chunks := []; json := None; ended := false |}.

(** All the text written to the body. *)
Definition join (texts : list string) : string := fold_right append EmptyString texts.

Definition body_text (r : Response) : string := join (chunks r).

Fixpoint set_header (k v : string) (hs : list (string * string)) : list (string * string) :=
  match hs with
  | [] => [(k, v)]
  | (k', v') :: rest => if k =? k' then (k, v) :: rest else (k', v') :: set_header k v rest
  end.

Fixpoint has_header (k : string) (hs : list (string * string)) : bool :=
  match hs with
  | [] => false
  | (k', _) :: rest => (k =? k') || has_header k rest
  end.

Definition set_status (n : nat) (r : Response) : Response :=
  {| statusCode := n; headers := headers r; chunks := chunks r;
     json := json r; ended := ended r |}.

Definition put_header (k v : string) (r : Response) : Response :=
  {| statusCode := statusCode r; headers := set_header k v (headers r);
     chunks := chunks r; json := json r; ended := ended r |}.

Definition send_json (document : JsValue) (r : Response) : Response :=
  {| statusCode := statusCode r;
     headers := if has_header "Content-Type" (headers r) then headers r
                else set_header "Content-Type" "application/json; charset=utf-8" (headers r);
     chunks := chunks r; json := Some document; ended := true |}.

Definition push_chunks (texts : list string) (r : Response) : Response :=
  {| statusCode := statusCode r; headers := headers r;
     chunks := (chunks r ++ texts)%list; json := json r; ended := ended r |}.

Definition finish (r : Response) : Response :=
  {| statusCode := statusCode r; headers := headers r; chunks := chunks r;
     json := json r; ended := true |}.

Record World : Type :=
  { config : Config;
    upstream : Upstream;
    res : Response;
    calls : list Call }.

Definition with_res (f : Response -> Response) (w : World) : World :=
  {| config := config w; upstream := upstream w; res := f (res w); calls := calls w |}.

(** ** Computations: state and exceptions *)

Inductive Completion (A : Type) : Type :=
| Normal (value : A)
| Thrown (error : JsError)
| Suspended.
Arguments Normal {A} value.
Arguments Thrown {A} error.
Arguments Suspended {A}.

(** A statement runs in a world and completes normally or abruptly; what it
    did to the world before throwing stays done.  A handler that awaits a
    promise that is never settled stays suspended there: nothing after the
    [await] runs, the [catch] block included. *)
Definition M (A : Type) : Type := World -> Completion A * World.

Definition ret {A} (a : A) : M A := fun w => (Normal a, w).

Definition bind {A B} (c : M A) (k : A -> M B) : M B :=
  fun w =>
    match c w with
    | (Normal a, w') => k a w'
    | (Thrown e, w') => (Thrown e, w')
    | (Suspended, w') => (Suspended, w')
    end.

Definition throw {A} (e : JsError) : M A := fun w => (Thrown e, w).

(** [try { body } catch (error) { handler }] *)
Definition try_catch {A} (body : M A) (handler : JsError -> M A) : M A :=
  fun w =>
    match body w with
    | (Normal a, w') => (Normal a, w')
    | (Thrown e, w') => handler e w'
    | (Suspended, w') => (Suspended, w')
    end.

Declare Scope js_scope.
Delimit Scope js_scope with js.
Notation "x <- c ;; k" := (bind c (fun x => k))
  (at level 61, c at next level, right associativity) : js_scope.
Notation "c ;; k" := (bind c (fun _ => k))
  (at level 61, right associativity) : js_scope.
Local Open Scope js_scope.

(** [for (const x of xs) body] *)
Fixpoint for_of {A} (xs : list A) (body : A -> M unit) : M unit :=
  match xs with
  | [] => ret tt
  | x :: rest => body x ;; for_of rest body
  end.

Definition exec {A} (c : M A) (w : World) : World := snd (c w).

(** *** Primitives *)

Definition read_config : M Config := fun w => (Normal (config w), w).

(** [res.status(n)] *)
Definition res_status (n : nat) : M unit :=
  fun w => (Normal tt, with_res (set_status n) w).

(** [res.setHeader(name, value)] *)
Definition res_setHeader (k v : string) : M unit :=
  fun w => (Normal tt, with_res (put_header k v) w).

(** [res.json(document)]: sends the document and ends the response; the
    content type is set unless the handler chose one.  A member whose value
    is [undefined] is left out when the document is written out. *)
Definition res_json (document : JsValue) : M unit :=
  fun w => (Normal tt, with_res (send_json document) w).

(** [res.write(chunk)]: a string is appended to the body; any other value
    is refused with a [TypeError]. *)
Definition res_write (chunk : JsValue) : M unit :=
  match chunk with
  | JString text => fun w => (Normal tt, with_res (push_chunks [text]) w)
  | _ =>
      throw {| Error.code := Some "ERR_INVALID_ARG_TYPE"; Error.response := None;
               Error.message := "The chunk argument must be of type string or an instance of Buffer or Uint8Array" |}
  end.

(** [res.end()] *)
Definition res_end : M unit :=
  fun w => (Normal tt, with_res finish w).

(** A call of axios: it is recorded, and the upstream's reply resolves or
    rejects the awaited promise, or leaves it pending. *)
Definition request {A} (reply : Upstream -> Call -> Reply A) (c : Call) : M A :=
  fun w =>
    let w' := {| config := config w; upstream := upstream w; res := res w;
                 calls := (calls w ++ [c])%list |} in
    match reply (upstream w) c with
    | Resolve data => (Normal data, w')
    | Reject e => (Thrown e, w')
    | Pending => (Suspended, w')
    end.

(** [axios.get(url)] *)
Definition axios_get (u : string) : M JsValue :=
  request answer {| method := GET; url := u; payload := None;
                    responseType_stream := false; timeout := None |}.

(** [axios.post(url, body, { timeout })] *)
Definition axios_post (u : string) (body : JsValue) (ms : N) : M JsValue :=
  request answer {| method := POST; url := u; payload := Some body;
                    responseType_stream := false; timeout := Some ms |}.

(** [axios.post(url, body, { responseType: 'stream', timeout })] *)
Definition axios_post_stream (u : string) (body : JsValue) (ms : N) : M Feed :=
  request answer_stream {| method := POST; url := u; payload := Some body;
                           responseType_stream := true; timeout := Some ms |}.

(** [value.key], for the keys the handlers read ([message], [content],
    [usage], [models], [name]): none of them is a built-in property of a
    string, a number, a boolean or an array.  Reading a property of
    [undefined] or [null] is a [TypeError], here [None]. *)
Definition property (value : JsValue) (key : string) : option JsValue :=
  match value with
  | JUndefined | JNull => None
  | JObject members =>
      Some (match Js.lookup key members with Some v => v | None => JUndefined end)
  | _ => Some JUndefined
  end.

Definition cannot_read (value : JsValue) (key : string) : JsError :=
  Error.TypeError
    ("Cannot read properties of "
       ++ match value with JNull => "null" | _ => "undefined" end
       ++ " (reading '" ++ key ++ "')").

Definition get (value : JsValue) (key : string) : M JsValue :=
  match property value key with
  | Some v => ret v
  | None => throw (cannot_read value key)
  end.

(** [JSON.parse(text)] as a statement. *)
Definition JSON_parse_or_throw (text : string) : M JsValue :=
  match JSON_parse text with
  | Some v => ret v
  | None => throw (Error.SyntaxError "Unexpected token in JSON")
  end.

(** ** Request bodies *)

Module Body.
(** An attached image: file name, MIME type and, optionally, its base64
    payload. *)
Record Image : Type :=
  { name : string;
    type : string;
    data : option string }.

(** A turn of the history: its role, its content, and the other members
    the object may carry. *)
Record Turn : Type :=
  { role : string;
    content : string;
    others : list (string * JsValue) }.

(** The body of the chat routes; an absent field is [None]. *)
Record Chat : Type :=
  { message : option string;
    images : option (list Image);
    conversation_history : option (list Turn);
    model : option string }.
End Body.

(** Truthiness of a field that is absent or a string. *)
Definition given (field : option string) : bool :=
  match field with
  | Some text => negb (text =? EmptyString)
  | None => false
  end.

(** [field || ''] *)
Definition or_empty (field : option string) : string :=
  match field with
  | Some text => text
  | None => EmptyString
  end.

(** [const { list = [] } = req.body] *)
Definition or_nil {A} (field : option (list A)) : list A :=
  match field with
  | Some l => l
  | None => []
  end.

Definition nl : string := String newline EmptyString.

(** [xs.forEach((x, index) => ...)] where the callback updates a captured
    variable: the variable is threaded through the calls. *)
Fixpoint forEach_from {A V} (index : nat) (xs : list A) (f : V -> A -> nat -> V) (v : V) : V :=
  match xs with
  | [] => v
  | x :: rest => forEach_from (S index) rest f (f v x index)
  end.

Definition forEach {A V} (xs : list A) (f : V -> A -> nat -> V) (v : V) : V :=
  forEach_from 0 xs f v.

(** ** The handlers *)

Definition SYSTEM_PROMPT : string :=
"You are Gemma3:1b, a helpful AI assistant. When responding, use markdown formatting to make your answers more readable.

For text responses:
- Use **bold** for emphasis
- Use *italic* for subtle emphasis
- Use headings (#, ##, ###) to structure longer responses
- Use bullet points (- or *) for lists
- Use numbered lists for steps
- Use `code` for inline code and triple backticks with language specification for code blocks
- Use tables for comparative data
- Use > for blockquotes

If the user provides images, you can reference them in your response. Describe what you see or answer questions about the images.

Always format your responses properly for better readability.".

Definition options : JsValue :=
  JObject [("temperature", JNumber 7 (-1)); ("top_p", JNumber 9 (-1))].

Definition system_turn : JsValue :=
  JObject [("role", JString "system"); ("content", JString SYSTEM_PROMPT)].

(** [{ role: msg.role, content: msg.content }] *)
Definition turn_object (msg : Body.Turn) : JsValue :=
  JObject [("role", JString (Body.role msg)); ("content", JString (Body.content msg))].

(** The turn object as the body carries it, which [...conversation_history]
    copies into the list unchanged. *)
Definition turn_as_received (msg : Body.Turn) : JsValue :=
  JObject (("role", JString (Body.role msg))
             :: ("content", JString (Body.content msg))
             :: Body.others msg).

Definition is_code (error : JsError) (c : string) : bool :=
  match Error.code error with
  | Some c' => c' =? c
  | None => false
  end.

(** [error.response?.status === n] *)
Definition response_status_is (error : JsError) (n : nat) : bool :=
  match Error.response error with
  | Some (status, _) => (status =? n)%nat
  | None => false
  end.

(** *** GET /api/health *)
Definition health : M unit :=
  cfg <- read_config ;;
  res_json (JObject [("status", JString "OK");
                     ("model", JString (MODEL_NAME cfg));
                     ("ollama_url", JString (OLLAMA_BASE_URL cfg));
                     ("features", JArray [JString "chat"; JString "images"; JString "formatting"])]).

(** *** POST /api/chat *)

(** The text of the current turn (lines 85-97). *)
Definition chat_user_message (message : option string) (images : list Body.Image) : string :=
  let userMessage := or_empty message in
  if (0 <? length images)%nat then
    let userMessage :=
      if negb (userMessage =? EmptyString) then
        userMessage ++ nl ++ nl ++ "[User attached " ++ decimal (length images)
          ++ " image(s). Please respond accordingly.]"
      else
        "[User attached " ++ decimal (length images)
          ++ " image(s). Please describe or analyze these images.]" in
    forEach images (fun userMessage img index =>
      userMessage ++ nl ++ "Image " ++ decimal (index + 1) ++ ": " ++ Body.name img
        ++ " (" ++ Body.type img ++ ")") userMessage
  else userMessage.

Definition chat (body : Body.Chat) : M unit :=
  try_catch
    (let message := Body.message body in
     let images := or_nil (Body.images body) in
     let conversation_history := or_nil (Body.conversation_history body) in
     if negb (given message) && (length images =? 0)%nat then
       res_status 400 ;;
       res_json (JObject [("error", JString "Message or images are required")])
     else
       cfg <- read_config ;;
       let messages := system_turn :: map turn_object conversation_history in
       let userMessage := chat_user_message message images in
       let messages :=
         (messages ++ [JObject [("role", JString "user"); ("content", JString userMessage)]])%list in
       let requestBody :=
         JObject [("model", JString (MODEL_NAME cfg));
                  ("messages", JArray messages);
                  ("stream", JBool false);
                  ("options", options)] in
       data <- axios_post (OLLAMA_BASE_URL cfg ++ "/api/chat") requestBody 120000 ;;
       reply <- get data "message" ;;
       aiResponse <- get reply "content" ;;
       usage <- get data "usage" ;;
       res_json (JObject [("response", aiResponse);
                          ("model", JString (MODEL_NAME cfg));
                          ("usage", usage);
                          ("images_received", Js.number_of_nat (length images))]))
    (fun error =>
       if is_code error "ECONNREFUSED" then
         res_status 503 ;;
         res_json (JObject [("error", JString "Ollama is not running. Please start Ollama first.");
                            ("details", JString "Run: ollama serve")])
       else
         match Error.response error with
         | Some (status, data) =>
             res_status status ;;
             res_json (JObject [("error", JString "Ollama API error"); ("details", data)])
         | None =>
             res_status 500 ;;
             res_json (JObject [("error", JString "Internal server error");
                                ("details", JString (Error.message error))])
         end).

(** *** POST /api/chat/stream *)

(** The text of the current turn (lines 173-180). *)
Definition stream_user_message (message : option string) (images : list Body.Image) : string :=
  let userMessage := or_empty message in
  if (0 <? length images)%nat then
    if negb (userMessage =? EmptyString) then
      userMessage ++ nl ++ nl ++ "[User attached " ++ decimal (length images) ++ " image(s)]"
    else
      "[User attached " ++ decimal (length images) ++ " image(s)]"
  else userMessage.

(** The body of the loop over the lines of a chunk (lines 207-210). *)
Definition relay_line (line : string) : M unit :=
  data <- JSON_parse_or_throw line ;;
  message <- get data "message" ;;
  if Js.truthy message then
    content <- get message "content" ;;
    if Js.truthy content then res_write content else ret tt
  else ret tt.

(** The ['data'] listener (lines 202-215): one [try] around the loop over
    the lines of the chunk. *)
Definition on_data (chunk : string) : M unit :=
  try_catch
    (let lines := filter (fun line => negb (is_blank line)) (split_lines chunk) in
     for_of lines relay_line)
    (fun parseError => ret tt).

(** The ['end'] listener. *)
Definition on_end : M unit := res_end.

(** The ['error'] listener. *)
Definition on_error (error : JsError) : M unit := res_end.

(** The events of the upstream stream reach the listeners in order. *)
Definition deliver (feed : Feed) : M unit :=
  for_of (emitted feed) on_data ;;
  match closing feed with
  | EndEvent => on_end
  | ErrorEvent error => on_error error
  | NoEvent => ret tt
  end.

(** The handler sets the stream up inside its [try]; the listeners run
    afterwards, outside of it. *)
Definition chat_stream (body : Body.Chat) : M unit :=
  stream <-
    try_catch
      (let message := Body.message body in
       let images := or_nil (Body.images body) in
       let conversation_history := or_nil (Body.conversation_history body) in
       if negb (given message) && (length images =? 0)%nat then
         res_status 400 ;;
         res_json (JObject [("error", JString "Message or images are required")]) ;;
         ret None
       else
         cfg <- read_config ;;
         let messages := system_turn :: map turn_object conversation_history in
         let userMessage := stream_user_message message images in
         let messages :=
           (messages ++ [JObject [("role", JString "user"); ("content", JString userMessage)]])%list in
         let requestBody :=
           JObject [("model", JString (MODEL_NAME cfg));
                    ("messages", JArray messages);
                    ("stream", JBool true);
                    ("options", options)] in
         res_setHeader "Content-Type" "text/plain; charset=utf-8" ;;
         res_setHeader "Transfer-Encoding" "chunked" ;;
         feed <- axios_post_stream (OLLAMA_BASE_URL cfg ++ "/api/chat") requestBody 120000 ;;
         ret (Some feed))
      (fun error =>
         res_status 500 ;;
         res_json (JObject [("error", JString "Stream setup failed")]) ;;
         ret None) ;;
  match stream with
  | Some feed => deliver feed
  | None => ret tt
  end.

(** *** POST /api/chat/multimodal *)

(** The part pushed for one image (lines 266-271): the payload is not read. *)
Definition image_part (img : Body.Image) : JsValue :=
  JObject [("type", JString "image");
           ("source", JString ("data:" ++ Body.type img ++ ";base64,[image_data_here]"))].

Definition multimodal_content (message : option string) (images : list Body.Image)
  : list JsValue :=
  ((if given message
    then [JObject [("type", JString "text"); ("text", JString (or_empty message))]]
    else [])
   ++ (if (0 <? length images)%nat then map image_part images else []))%list.

Definition chat_multimodal (body : Body.Chat) : M unit :=
  try_catch
    (let message := Body.message body in
     let images := or_nil (Body.images body) in
     let conversation_history := or_nil (Body.conversation_history body) in
     let customModel := Body.model body in
     if negb (given message) && (length images =? 0)%nat then
       res_status 400 ;;
       res_json (JObject [("error", JString "Message or images are required")])
     else
       cfg <- read_config ;;
       let modelToUse := if given customModel then or_empty customModel else MODEL_NAME cfg in
       let messages := system_turn :: map turn_as_received conversation_history in
       let userMessage :=
         JObject [("role", JString "user");
                  ("content", JArray (multimodal_content message images))] in
       let messages := (messages ++ [userMessage])%list in
       let requestBody :=
         JObject [("model", JString modelToUse);
                  ("messages", JArray messages);
                  ("stream", JBool false);
                  ("options", options)] in
       data <- axios_post (OLLAMA_BASE_URL cfg ++ "/api/chat") requestBody 120000 ;;
       reply <- get data "message" ;;
       aiResponse <- get reply "content" ;;
       usage <- get data "usage" ;;
       res_json (JObject [("response", aiResponse);
                          ("model", JString modelToUse);
                          ("usage", usage);
                          ("multimodal", JBool true);
                          ("images_processed", Js.number_of_nat (length images))]))
    (fun error =>
       if is_code error "ECONNREFUSED" then
         res_status 503 ;;
         res_json (JObject [("error", JString "Ollama is not running");
                            ("details", JString "Please start Ollama first: ollama serve")])
       else if response_status_is error 404 then
         res_status 404 ;;
         res_json (JObject [("error", JString "Model not found or not multimodal");
                            ("details", JString "The model might not support images. Try a multimodal model like LLaVA.")])
       else
         res_status 500 ;;
         res_json (JObject [("error", JString "Multimodal chat failed");
                            ("details", JString (Error.message error))])).

(** *** POST /api/switch-model *)

(** [n === model] for a string [model] *)
Definition is_string (v : JsValue) (text : string) : bool :=
  match v with
  | JString s => s =? text
  | _ => false
  end.

Fixpoint some_item (items : list JsValue) (p : JsValue -> M bool) : M bool :=
  match items with
  | [] => ret false
  | m :: rest => found <- p m ;; if found then ret true else some_item rest p
  end.

(** [models.some(p)]: only an array has the method. *)
Definition some (models : JsValue) (p : JsValue -> M bool) : M bool :=
  match models with
  | JArray items => some_item items p
  | _ => throw (Error.TypeError "models.some is not a function")
  end.

Definition supports_images (model : string) : bool :=
  includes model "llava" || includes model "bakllava" || includes model "vision".

Definition switch_model (field : option string) : M unit :=
  try_catch
    (if negb (given field) then
       res_status 400 ;;
       res_json (JObject [("error", JString "Model name is required")])
     else
       let model := or_empty field in
       cfg <- read_config ;;
       data <- axios_get (OLLAMA_BASE_URL cfg ++ "/api/tags") ;;
       listed <- get data "models" ;;
       let models := if Js.truthy listed then listed else JArray [] in
       modelExists <- some models (fun m => n <- get m "name" ;; ret (is_string n model)) ;;
       if negb modelExists then
         res_status 404 ;;
         res_json (JObject [("error", JString ("Model '" ++ model ++ "' not found"))])
       else
         res_json (JObject [("success", JBool true);
                            ("message", JString ("Model switched to " ++ model));
                            ("new_model", JString model);
                            ("supports_images", JBool (supports_images model))]))
    (fun error =>
       res_status 500 ;;
       res_json (JObject [("error", JString "Failed to switch model");
                          ("details", JString (Error.message error))])).

(** *** GET /api/check-ollama and GET /api/model-info *)

(** [value.includes(needle)] for a string [needle]: the substring test of a
    string, the membership test of an array; any other value has no such
    method, and reading it off [undefined] or [null] throws. *)
Definition includes_method (value : JsValue) (needle : string) : M bool :=
  match value with
  | JString text => ret (includes text needle)
  | JArray items => ret (existsb (fun item => is_string item needle) items)
  | JUndefined | JNull => throw (cannot_read value "includes")
  | _ => throw (Error.TypeError "model.name.includes is not a function")
  end.

Fixpoint find_item (items : list JsValue) (p : JsValue -> M bool) : M JsValue :=
  match items with
  | [] => ret JUndefined
  | m :: rest => found <- p m ;; if found then ret m else find_item rest p
  end.

(** [models.find(p)]: the first element [p] holds of, or [undefined]. *)
Definition find (models : JsValue) (p : JsValue -> M bool) : M JsValue :=
  match models with
  | JArray items => find_item items p
  | _ => throw (Error.TypeError "models.find is not a function")
  end.

Fixpoint map_items (items : list JsValue) (f : JsValue -> M JsValue) : M (list JsValue) :=
  match items with
  | [] => ret []
  | m :: rest => v <- f m ;; vs <- map_items rest f ;; ret (v :: vs)
  end.

(** [models.map(f)] *)
Definition map_array (models : JsValue) (f : JsValue -> M JsValue) : M (list JsValue) :=
  match models with
  | JArray items => map_items items f
  | _ => throw (Error.TypeError "models.map is not a function")
  end.

Definition check_ollama : M unit :=
  try_catch
    (cfg <- read_config ;;
     data <- axios_get (OLLAMA_BASE_URL cfg ++ "/api/tags") ;;
     listed <- get data "models" ;;
     let models := if Js.truthy listed then listed else JArray [] in
     gemmaModel <- find models (fun model =>
                     n <- get model "name" ;; includes_method n "gemma3:1b") ;;
     available_models <- map_array models (fun m => get m "name") ;;
     res_json (JObject [("ollama_status", JString "running");
                        ("gemma_model_available", JBool (Js.truthy gemmaModel));
                        ("available_models", JArray available_models);
                        ("supports_images", JBool true)]))
    (fun error =>
       res_status 500 ;;
       res_json (JObject [("ollama_status", JString "not_available");
                          ("error", JString (Error.message error))])).

(** [name.includes('llava') || name.includes('bakllava') || name.includes('vision')]
    for the [name] of an upstream entry. *)
Definition vision_name (name : JsValue) : M bool :=
  llava <- includes_method name "llava" ;;
  if llava then ret true
  else
    bakllava <- includes_method name "bakllava" ;;
    if bakllava then ret true else includes_method name "vision".

Definition model_info : M unit :=
  try_catch
    (cfg <- read_config ;;
     data <- axios_get (OLLAMA_BASE_URL cfg ++ "/api/tags") ;;
     listed <- get data "models" ;;
     let models := if Js.truthy listed then listed else JArray [] in
     modelInfo <- map_array models (fun model =>
                    name <- get model "name" ;;
                    size <- get model "size" ;;
                    modified <- get model "modified" ;;
                    supports <- vision_name name ;;
                    is_multimodal <- vision_name name ;;
                    ret (JObject [("name", name);
                                  ("size", size);
                                  ("modified", modified);
                                  ("supports_images", JBool supports);
                                  ("is_multimodal", JBool is_multimodal)])) ;;
     res_json (JObject [("current_model", JString (MODEL_NAME cfg));
                        ("available_models", JArray modelInfo);
                        ("current_supports_images", JBool (supports_images (MODEL_NAME cfg)))]))
    (fun error =>
       res_status 500 ;;
       res_json (JObject [("error", JString "Failed to get model info");
                          ("details", JString (Error.message error))])).

(** ** The server *)

Inductive Request : Type :=
| GetHealth
| PostChat (body : Body.Chat)
| PostChatStream (body : Body.Chat)
| PostChatMultimodal (body : Body.Chat)
| PostSwitchModel (model : option string).

Definition route (r : Request) : M unit :=
  match r with
  | GetHealth => health
  | PostChat body => chat body
  | PostChatStream body => chat_stream body
  | PostChatMultimodal body => chat_multimodal body
  | PostSwitchModel model => switch_model model
  end.

(** One request served from a fresh response object, with no call made yet. *)
Definition start (cfg : Config) (up : Upstream) : World :=
  {| config := cfg; upstream := up; res := fresh_response; calls := [] |}.

Definition serve (cfg : Config) (up : Upstream) (r : Request) : World :=
  exec (route r) (start cfg up).

(** * The vocabulary of the properties *)

(** ** Chunks, lines and frames *)

(** The text of a chunk made of whole lines, each closed by a newline. *)
Definition lines_text (lines : list string) : string :=
  join (map (fun line => line ++ nl) lines).

(** The first byte of a white-space character of [trim]. *)
Definition leads_blank (c : ascii) : bool :=
  ws1 c || (code c =? 0xC2)%N || (code c =? 0xE1)%N || (code c =? 0xE2)%N
  || (code c =? 0xE3)%N || (code c =? 0xEF)%N.

(** *** What the data listener writes, as a function of the chunk *)

(** What the loop body does with one line: it writes a text, it writes
    nothing, or it throws. *)
Inductive Outcome : Type :=
| Wrote (text : string)
| Nothing
| Failed.

Definition line_outcome (line : string) : Outcome :=
  match JSON_parse line with
  | None => Failed
  | Some data =>
      match property data "message" with
      | None => Failed
      | Some message =>
          if Js.truthy message then
            match property message "content" with
            | None => Failed
            | Some content =>
                if Js.truthy content then
                  match content with
                  | JString text => Wrote text
                  | _ => Failed
                  end
                else Nothing
            end
          else Nothing
      end
  end.

(** The texts written for a list of lines: the loop stops at the first line
    that throws. *)
Fixpoint lines_writes (lines : list string) : list string :=
  match lines with
  | [] => []
  | line :: rest =>
      match line_outcome line with
      | Wrote text => text :: lines_writes rest
      | Nothing => lines_writes rest
      | Failed => []
      end
  end.

(** The texts written for one chunk, and for the chunks of a stream. *)
Definition chunk_writes (chunk : string) : list string :=
  lines_writes (filter (fun line => negb (is_blank line)) (split_lines chunk)).

Definition relay_writes (chunks : list string) : list string :=
  flat_map chunk_writes chunks.

(** What the closing event does to the response. *)
Definition close (c : Closing) (r : Response) : Response :=
  match c with
  | EndEvent | ErrorEvent _ => finish r
  | NoEvent => r
  end.

(** *** Frames *)

(** [data.message.content] of a parsed line, when it is a text. *)
Definition text_delta (data : JsValue) : option string :=
  match data with
  | JObject members =>
      match Js.lookup "message" members with
      | Some (JObject inner) =>
          match Js.lookup "content" inner with
          | Some (JString text) => Some text
          | _ => None
          end
      | _ => None
      end
  | _ => None
  end.

(** A frame: a line, without a newline inside, that [JSON.parse] accepts and
    that carries the text delta [snd f]. *)
Definition is_frame (f : string * string) : bool :=
  negb (has_newline (fst f))
  && match JSON_parse (fst f) with
     | Some data =>
         match text_delta data with
         | Some text => text =? snd f
         | None => false
         end
     | None => false
     end.

(** The chunk made of the lines of the frames [fs], each closed by a newline. *)
Definition frames_chunk (fs : list (string * string)) : string :=
  lines_text (map fst fs).

Definition deltas (fs : list (string * string)) : list string := map snd fs.

Definition nonempty (text : string) : bool := negb (text =? EmptyString).

(** A character that stands for itself in a JSON string: not a quote, not
    a backslash, not a control character. *)
Definition plain_char (c : ascii) : bool :=
  negb (c =? quote)%char && negb (c =? backslash)%char && negb (code c <? 0x20)%N.

Fixpoint plain (text : string) : bool :=
  match text with
  | EmptyString => true
  | String c r => plain_char c && plain r
  end.

(** [text] between quotes, followed by [rest]. *)
Definition quoted (text rest : string) : string :=
  String quote (text ++ String quote rest).

(** The line of an object whose [message] has the one member [content],
    the text [text]. *)
Definition delta_line (text : string) : string :=
  String "{" (quoted "message" (String ":" (String "{"
    (quoted "content" (String ":" (quoted text "}}")))))).

(** ** Requests and the calls they make *)

(** The validation shared by the three chat routes:
    [!message && images.length === 0]. *)
Definition rejected (body : Body.Chat) : bool :=
  negb (given (Body.message body)) && (length (or_nil (Body.images body)) =? 0)%nat.

(** The response once the stream is set up and before any event. *)
Definition opened_response : Response :=
  {| statusCode := 200;
     headers := [("Content-Type", "text/plain; charset=utf-8");
                 ("Transfer-Encoding", "chunked")];
     chunks := []; json := None; ended := false |}.

Definition user_turn (text : string) : JsValue :=
  JObject [("role", JString "user"); ("content", JString text)].

(** The call POST /api/chat makes for a body that passes validation. *)
Definition chat_call (cfg : Config) (body : Body.Chat) : Call :=
  {| method := POST;
     url := OLLAMA_BASE_URL cfg ++ "/api/chat";
     payload :=
       Some (JObject
               [("model", JString (MODEL_NAME cfg));
                ("messages",
                 JArray ((system_turn :: map turn_object (or_nil (Body.conversation_history body)))
                           ++ [user_turn (chat_user_message (Body.message body)
                                            (or_nil (Body.images body)))])%list);
                ("stream", JBool false);
                ("options", options)]);
     responseType_stream := false;
     timeout := Some 120000%N |}.

(** The [messages] array of a call. *)
Definition upstream_messages (c : Call) : list JsValue :=
  match payload c with
  | Some (JObject members) =>
      match Js.lookup "messages" members with
      | Some (JArray turns) => turns
      | _ => []
      end
  | _ => []
  end.

(** The line listing the image at position [index] (from 0). *)
Definition image_line (index : nat) (img : Body.Image) : string :=
  "Image " ++ decimal (index + 1) ++ ": " ++ Body.name img ++ " (" ++ Body.type img ++ ")".

Fixpoint image_lines_from (index : nat) (images : list Body.Image) : list string :=
  match images with
  | [] => []
  | img :: rest => image_line index img :: image_lines_from (S index) rest
  end.

Definition image_lines (images : list Body.Image) : list string :=
  image_lines_from 0 images.

(** The text the lines are appended to: the message followed by the count
    annotation, or the count annotation alone. *)
Definition annotated (message : option string) (count : nat) : string :=
  if given message then
    or_empty message ++ nl ++ nl ++ "[User attached " ++ decimal count
      ++ " image(s). Please respond accordingly.]"
  else
    "[User attached " ++ decimal count ++ " image(s). Please describe or analyze these images.]".

(** Whether the list [items] has an entry named [model], as [models.some]
    finds out: [None] when reading the name of an entry throws before a
    match is found. *)
Fixpoint names_model (model : string) (items : list JsValue) : option bool :=
  match items with
  | [] => Some false
  | m :: rest =>
      match property m "name" with
      | None => None
      | Some n => if is_string n model then Some true else names_model model rest
      end
  end.

(** Whether the reply of [GET /api/tags] lists [model]. *)
Definition lists (data : JsValue) (model : string) : option bool :=
  match property data "models" with
  | None => None
  | Some listed =>
      match (if Js.truthy listed then listed else JArray []) with
      | JArray items => names_model model items
      | _ => None
      end
  end.

Definition tags_call (cfg : Config) : Call :=
  {| method := GET; url := OLLAMA_BASE_URL cfg ++ "/api/tags"; payload := None;
     responseType_stream := false; timeout := None |}.

(** An image without its payload, and a body without the payloads of its
    images. *)
Definition without_data (img : Body.Image) : Body.Image :=
  {| Body.name := Body.name img; Body.type := Body.type img; Body.data := None |}.

Definition without_payloads (body : Body.Chat) : Body.Chat :=
  {| Body.message := Body.message body;
     Body.images := option_map (map without_data) (Body.images body);
     Body.conversation_history := Body.conversation_history body;
     Body.model := Body.model body |}.

(** The call POST /api/chat/multimodal makes for a body that passes
    validation. *)
Definition multimodal_call (cfg : Config) (body : Body.Chat) : Call :=
  {| method := POST;
     url := OLLAMA_BASE_URL cfg ++ "/api/chat";
     payload :=
       Some (JObject
               [("model", JString (if given (Body.model body)
                                   then or_empty (Body.model body)
                                   else MODEL_NAME cfg));
                ("messages",
                 JArray ((system_turn :: map turn_as_received (or_nil (Body.conversation_history body)))
                           ++ [JObject
                                 [("role", JString "user");
                                  ("content",
                                   JArray
                                     ((if given (Body.message body)
                                       then [JObject [("type", JString "text");
                                                      ("text", JString (or_empty (Body.message body)))]]
                                       else [])
                                        ++ map (fun img =>
                                                  JObject
                                                    [("type", JString "image");
                                                     ("source",
                                                      JString ("data:" ++ Body.type img
                                                                 ++ ";base64,[image_data_here]")%string)])
                                             (or_nil (Body.images body))))]])%list);
                ("stream", JBool false);
                ("options", options)]);
     responseType_stream := false;
     timeout := Some 120000%N |}.

(** ** Computations that leave the configuration alone *)

(** A computation that leaves the configuration and the upstream as they
    were, however it completes. *)
Definition keeps_config {A} (c : M A) : Prop :=
  forall w, config (snd (c w)) = config w /\ upstream (snd (c w)) = upstream w.

(** ** Sample requests and upstreams *)

Module Demo.

Definition cfg : Config := load_config (fun _ => None).

Definition text_only : Body.Chat :=
  {| Body.message := Some "hello"; Body.images := None;
     Body.conversation_history := None; Body.model := None |}.

Definition refused : JsError :=
  {| Error.code := Some "ECONNREFUSED"; Error.response := None;
     Error.message := "connect ECONNREFUSED 127.0.0.1:11434" |}.

Definition reset : JsError :=
  {| Error.code := Some "ECONNRESET"; Error.response := None;
     Error.message := "aborted" |}.

(** An upstream whose streaming calls answer with [feed]. *)
Definition streaming (feed : Feed) : Upstream :=
  {| answer := fun _ => Reject refused;
     answer_stream := fun _ => Resolve feed |}.

(** An upstream that is not listening. *)
Definition down : Upstream :=
  {| answer := fun _ => Reject refused;
     answer_stream := fun _ => Reject refused |}.

(** An upstream whose calls answer with the document [data]. *)
Definition answering (data : JsValue) : Upstream :=
  {| answer := fun _ => Resolve data;
     answer_stream := fun _ => Reject refused |}.

Definition frame (text : string) : string * string :=
  (wire "{'message':{'role':'assistant','content':'" ++ text ++ wire "'},'done':false}", text).

Definition cat : Body.Image :=
  {| Body.name := "cat.png"; Body.type := "image/png"; Body.data := Some "iVBORw0KGgo=" |}.

Definition dog : Body.Image :=
  {| Body.name := "dog.jpg"; Body.type := "image/jpeg"; Body.data := Some "/9j/4AAQSkZJRg==" |}.

Definition with_images : Body.Chat :=
  {| Body.message := Some "look"; Body.images := Some [cat; dog];
     Body.conversation_history := None; Body.model := None |}.

Definition with_history : Body.Chat :=
  {| Body.message := Some "and then?"; Body.images := Some [];
     Body.conversation_history :=
       Some [ {| Body.role := "user"; Body.content := "tell me a story";
                 Body.others := [] |};
              {| Body.role := "assistant"; Body.content := "Once upon a time";
                 Body.others := [] |} ];
     Body.model := None |}.

Definition empty_body : Body.Chat :=
  {| Body.message := None; Body.images := None;
     Body.conversation_history := None; Body.model := None |}.

(** A turn of an earlier exchange, as a client that stamps its turns sends it. *)
Definition earlier_turn : Body.Turn :=
  {| Body.role := "user"; Body.content := "what is this?";
     Body.others := [("timestamp", JString "2024-05-01T10:00:00.000Z")] |}.

End Demo.

(** ** Vocabulary for the other routes *)

(** The call POST /api/chat/stream makes for a body that passes validation. *)
Definition stream_call (cfg : Config) (body : Body.Chat) : Call :=
  {| method := POST;
     url := OLLAMA_BASE_URL cfg ++ "/api/chat";
     payload :=
       Some (JObject
               [("model", JString (MODEL_NAME cfg));
                ("messages",
                 JArray ((system_turn :: map turn_object (or_nil (Body.conversation_history body)))
                           ++ [user_turn (stream_user_message (Body.message body)
                                            (or_nil (Body.images body)))])%list);
                ("stream", JBool true);
                ("options", options)]);
     responseType_stream := true;
     timeout := Some 120000%N |}.

(** The upstream calls a request leads to. *)
Definition planned_calls (cfg : Config) (r : Request) : list Call :=
  match r with
  | GetHealth => []
  | PostChat body => if rejected body then [] else [chat_call cfg body]
  | PostChatStream body => if rejected body then [] else [stream_call cfg body]
  | PostChatMultimodal body => if rejected body then [] else [multimodal_call cfg body]
  | PostSwitchModel field => if given field then [tags_call cfg] else []
  end.

(** A computation that does nothing to the world and awaits nothing. *)
Definition reads_only {A} (c : M A) : Prop :=
  forall w, snd (c w) = w /\ fst (c w) <> Suspended.

(** The response has been sent as a JSON document. *)
Definition answered (w : World) : Prop :=
  ended (res w) = true /\ json (res w) <> None.

(** A computation that has answered whenever it completes normally. *)
Definition answers_unless_thrown {A} (c : M A) : Prop :=
  forall w, match c w with
            | (Normal _, w') => answered w'
            | (Thrown _, _) => True
            | (Suspended, _) => True
            end.

(** A computation that has answered whenever it completes. *)
Definition answers {A} (c : M A) : Prop :=
  forall w, match c w with
            | (Suspended, _) => True
            | (_, w') => answered w'
            end.

(** An upstream that settles every call that asks for a document. *)
Definition settles (up : Upstream) : Prop := forall c, answer up c <> Pending.

(** A computation that asks for documents only, and so completes whenever
    the upstream settles such calls; it leaves the upstream as it is. *)
Definition completes {A} (c : M A) : Prop :=
  forall w, settles (upstream w) ->
            fst (c w) <> Suspended /\ upstream (snd (c w)) = upstream w.

(** A computation that calls nobody. *)
Definition silent {A} (c : M A) : Prop := forall w, calls (snd (c w)) = calls w.

(** The value of [data.key], [undefined] where there is none. *)
Definition field (data : JsValue) (key : string) : JsValue :=
  match property data key with
  | Some v => v
  | None => JUndefined
  end.

(** The [name] of every entry of a list, when no entry is [null]. *)
Fixpoint name_values (items : list JsValue) : option (list JsValue) :=
  match items with
  | [] => Some []
  | item :: rest =>
      match property item "name", name_values rest with
      | Some v, Some vs => Some (v :: vs)
      | _, _ => None
      end
  end.

(** The entry GET /api/model-info answers for an upstream entry named [n]. *)
Definition info_entry (item : JsValue) (n : string) : JsValue :=
  JObject [("name", JString n);
           ("size", field item "size");
           ("modified", field item "modified");
           ("supports_images", JBool (supports_images n));
           ("is_multimodal", JBool (supports_images n))].

(** Sample replies and failures of the upstream. *)
Module Tags.

Definition gemma : JsValue :=
  JObject [("name", JString "gemma3:1b"); ("size", JNumber 815319791 0);
           ("modified", JString "2025-03-12T10:00:00Z")].

Definition llava : JsValue :=
  JObject [("name", JString "llava:7b"); ("size", JNumber 4733363377 0)].

Definition unnamed : JsValue := JObject [("size", JNumber 1 0)].

Definition listing (items : list JsValue) : JsValue := JObject [("models", JArray items)].

Definition reply : JsValue :=
  JObject [("message", JObject [("role", JString "assistant");
                                ("content", JString "A cat and a dog.")]);
           ("done", JBool true)].

Definition not_found : JsError :=
  {| Error.code := Some "ERR_BAD_REQUEST";
     Error.response := Some (404, JObject [("error", JString "model not found")]);
     Error.message := "Request failed with status code 404" |}.

Definition timed_out : JsError :=
  {| Error.code := Some "ECONNABORTED"; Error.response := None;
     Error.message := "timeout of 120000ms exceeded" |}.

(** An upstream whose every call fails with [e]. *)
Definition failing (e : JsError) : Upstream :=
  {| answer := fun _ => Reject e; answer_stream := fun _ => Reject e |}.

End Tags.

(** The world once the tag list has been asked for. *)
Definition asked (cfg : Config) (up : Upstream) : World :=
  {| config := cfg; upstream := up; res := fresh_response; calls := [tags_call cfg] |}.

(** The function GET /api/model-info maps over the upstream entries, by
    name; [model.name] is read once, every read of it giving the same value. *)
Definition describe (model : JsValue) : M JsValue :=
  name <- get model "name" ;;
  size <- get model "size" ;;
  modified <- get model "modified" ;;
  supports <- vision_name name ;;
  is_multimodal <- vision_name name ;;
  ret (JObject [("name", name);
                ("size", size);
                ("modified", modified);
                ("supports_images", JBool supports);
                ("is_multimodal", JBool is_multimodal)]).

(** * Properties *)

(** ** Strings and lines *)

Lemma append_assoc (a b c : string) : (a ++ b) ++ c = a ++ (b ++ c).
Proof. induction a as [|x a IH]; simpl; [reflexivity | now rewrite IH]. Qed.

Lemma append_empty_r (a : string) : a ++ EmptyString = a.
Proof. induction a as [|x a IH]; simpl; [reflexivity | now rewrite IH]. Qed.

Lemma join_app (xs ys : list string) : join (xs ++ ys) = join xs ++ join ys.
Proof.
  induction xs as [|x xs IH]; simpl; [reflexivity|].
  now rewrite IH, append_assoc.
Qed.

Lemma split_lines_from_line (line : string) :
  forall cur rest,
    has_newline line = false ->
    split_lines_from cur (line ++ nl ++ rest) = (cur ++ line) :: split_lines rest.
Proof.
  induction line as [|c line IH]; intros cur rest H; simpl in *.
  - now rewrite append_empty_r.
  - apply orb_false_iff in H as [Hc Hl].
    rewrite Hc, (IH _ _ Hl), append_assoc. reflexivity.
Qed.

Lemma split_lines_text (lines : list string) (rest : string) :
  forallb (fun line => negb (has_newline line)) lines = true ->
  split_lines (lines_text lines ++ rest) = (lines ++ split_lines rest)%list.
Proof.
  induction lines as [|line lines IH]; intros H; simpl in *; [reflexivity|].
  apply andb_true_iff in H as [Hl Hs]. apply negb_true_iff in Hl.
  unfold lines_text in *; simpl.
  rewrite !append_assoc. unfold split_lines at 1.
  rewrite (split_lines_from_line line EmptyString _ Hl). simpl.
  now rewrite <- IH.
Qed.

(** ** A blank line is not JSON *)

Lemma is_blank_head (c : ascii) (r : string) :
  is_blank (String c r) = true -> leads_blank c = true.
Proof.
  unfold leads_blank. simpl.
  destruct (ws1 c); [reflexivity|].
  destruct r as [|c2 r2]; [discriminate|].
  unfold ws2, ws3.
  destruct (code c =? 0xC2)%N; [reflexivity|].
  destruct (code c =? 0xE1)%N; [reflexivity|].
  destruct (code c =? 0xE2)%N; [reflexivity|].
  destruct (code c =? 0xE3)%N; [reflexivity|].
  destruct (code c =? 0xEF)%N; [reflexivity|].
  simpl. destruct r2; discriminate.
Qed.

Lemma blank_is_no_value (c : ascii) :
  leads_blank c = true -> is_ws c = false -> starts_value c = false.
Proof.
  destruct c as [[] [] [] [] [] [] [] []]; vm_compute; intros; congruence.
Qed.

Lemma is_ws_ws1 (c : ascii) : is_ws c = true -> ws1 c = true.
Proof.
  destruct c as [[] [] [] [] [] [] [] []]; vm_compute; intros; congruence.
Qed.

Lemma skip_ws_blank (s : string) : is_blank s = true -> is_blank (skip_ws s) = true.
Proof.
  induction s as [|c r IH]; intros H; [exact H|].
  simpl skip_ws. destruct (is_ws c) eqn:E; [|exact H].
  apply IH. simpl in H. now rewrite (is_ws_ws1 c E) in H.
Qed.

Lemma skip_ws_head (s : string) (c : ascii) (r : string) :
  skip_ws s = String c r -> is_ws c = false.
Proof.
  induction s as [|x s IH]; simpl; [discriminate|].
  destruct (is_ws x) eqn:E; [exact IH|].
  intros H; injection H as -> _. exact E.
Qed.

Lemma blank_not_json (line : string) : is_blank line = true -> JSON_parse line = None.
Proof.
  intros H. unfold JSON_parse. simpl parse_value.
  pose proof (skip_ws_blank line H) as Hb.
  destruct (skip_ws line) as [|c r] eqn:E; [reflexivity|].
  rewrite (blank_is_no_value c (is_blank_head c r Hb) (skip_ws_head line c r E)).
  reflexivity.
Qed.

(** ** A line carrying a plain delta is a frame *)

Lemma parse_chars_plain (text : string) :
  forall fuel acc rest,
    plain text = true -> String.length text < fuel ->
    parse_chars fuel (text ++ String quote rest) acc = Some (acc ++ text, rest).
Proof.
  induction text as [|c text IH]; intros fuel acc rest Hp Hf; simpl in *.
  - destruct fuel; [lia|]. simpl. now rewrite append_empty_r.
  - destruct fuel; [lia|]. apply andb_true_iff in Hp as [Hc Ht].
    unfold plain_char in Hc. apply andb_true_iff in Hc as [Hc H3]. apply andb_true_iff in Hc as [H1 H2].
    apply negb_true_iff in H1, H2, H3.
    simpl. rewrite H1, H2, H3. rewrite IH; [|assumption|lia].
    now rewrite append_assoc.
Qed.

Lemma length_append (a b : string) : String.length (a ++ b) = String.length a + String.length b.
Proof. induction a as [|c a IH]; simpl; [reflexivity | now rewrite IH]. Qed.

Lemma parse_string_plain (text rest : string) :
  plain text = true -> parse_string (text ++ String quote rest) = Some (text, rest).
Proof.
  intros Hp. unfold parse_string.
  rewrite (parse_chars_plain text _ EmptyString rest Hp); [reflexivity|].
  rewrite length_append. simpl. lia.
Qed.

Lemma parse_value_quoted (fuel : nat) (text rest : string) :
  plain text = true -> parse_value (S fuel) (quoted text rest) = Some (JString text, rest).
Proof.
  intros Hp. unfold quoted.
  change (parse_value (S fuel) (String quote (text ++ String quote rest)))
    with (match parse_string (text ++ String quote rest) with
          | Some (t, r') => Some (JString t, r')
          | None => None
          end).
  now rewrite parse_string_plain.
Qed.

Lemma parse_members_one (pv : string -> option (JsValue * string)) (n : nat)
    (key inner rest : string) (v : JsValue) (acc : list (string * JsValue)) :
  plain key = true ->
  pv inner = Some (v, String "}" rest) ->
  parse_members pv (S n) (quoted key (String ":" inner)) acc
  = Some (JObject (acc ++ [(key, v)]), rest).
Proof.
  intros Hp Hv. unfold quoted.
  change (parse_members pv (S n) (String quote (key ++ String quote (String ":" inner))) acc)
    with (match parse_string (key ++ String quote (String ":" inner)) with
          | None => None
          | Some (k, r1) =>
              match skip_ws r1 with
              | EmptyString => None
              | String colon r2 =>
                  if (colon =? ":")%char then
                    match pv r2 with
                    | None => None
                    | Some (v, r3) =>
                        match skip_ws r3 with
                        | EmptyString => None
                        | String c r4 =>
                            if (c =? ",")%char
                            then parse_members pv n r4 (acc ++ [(k, v)])%list
                            else if (c =? "}")%char
                            then Some (JObject (acc ++ [(k, v)])%list, r4)
                            else None
                        end
                    end
                  else None
              end
          end).
  rewrite (parse_string_plain key _ Hp).
  change (skip_ws (String ":" inner)) with (String ":" inner). cbv beta iota.
  change (":" =? ":")%char with true. cbv beta iota. rewrite Hv.
  reflexivity.
Qed.

Lemma parse_value_object (fuel : nat) (key inner : string) :
  parse_value (S fuel) (String "{" (quoted key inner))
  = parse_members (parse_value fuel) (S (String.length (key ++ String quote inner)))
      (quoted key inner) [].
Proof. reflexivity. Qed.

Lemma delta_line_parses (text : string) :
  plain text = true ->
  JSON_parse (delta_line text)
  = Some (JObject [("message", JObject [("content", JString text)])]).
Proof.
  intros Hp. unfold JSON_parse, delta_line.
  rewrite parse_value_object.
  rewrite (parse_members_one _ _ "message" _ EmptyString
             (JObject [("content", JString text)]) [] eq_refl); [reflexivity|].
  change (String.length (String "{" ?s)) with (S (String.length s)).
  rewrite parse_value_object.
  apply (parse_members_one _ _ "content" _ "}" (JString text) [] eq_refl).
  change (String.length (quoted "message" ?s)) with (S (String.length ("message" ++ String quote s))).
  change (String.length ("message" ++ ?s)) with (S (S (S (S (S (S (S (String.length s)))))))).
  now apply parse_value_quoted.
Qed.

Lemma has_newline_app (a b : string) :
  has_newline (a ++ b) = has_newline a || has_newline b.
Proof. induction a as [|c a IH]; simpl; [reflexivity | now rewrite IH, orb_assoc]. Qed.

Lemma plain_has_no_newline (text : string) : plain text = true -> has_newline text = false.
Proof.
  induction text as [|c text IH]; simpl; [reflexivity|].
  intros H. apply andb_true_iff in H as [Hc Ht]. rewrite (IH Ht), orb_false_r.
  destruct (Ascii.eqb_spec c newline) as [->|]; [discriminate | reflexivity].
Qed.

Lemma delta_line_is_frame (text : string) :
  plain text = true -> is_frame (delta_line text, text) = true.
Proof.
  intros Hp. unfold is_frame. simpl fst; simpl snd.
  rewrite (delta_line_parses text Hp).
  change (text_delta (JObject [("message", JObject [("content", JString text)])]))
    with (Some text).
  cbv beta iota. rewrite String.eqb_refl.
  rewrite andb_true_r. apply negb_true_iff.
  unfold delta_line, quoted. simpl. rewrite has_newline_app, (plain_has_no_newline text Hp).
  reflexivity.
Qed.

(** ** What the data listener writes *)

Lemma with_res_push_nil (w : World) : with_res (push_chunks []) w = w.
Proof.
  destruct w as [c u [s h ch j e] l]. unfold with_res, push_chunks; simpl.
  now rewrite app_nil_r.
Qed.

Lemma with_res_push_push (a b : list string) (w : World) :
  with_res (push_chunks b) (with_res (push_chunks a) w) = with_res (push_chunks (a ++ b)) w.
Proof.
  unfold with_res, push_chunks; simpl. now rewrite app_assoc.
Qed.

Lemma relay_line_run (line : string) (w : World) :
  match line_outcome line with
  | Wrote text => relay_line line w = (Normal tt, with_res (push_chunks [text]) w)
  | Nothing => relay_line line w = (Normal tt, w)
  | Failed => exists e, relay_line line w = (Thrown e, w)
  end.
Proof.
  unfold line_outcome, relay_line, bind, JSON_parse_or_throw, get.
  destruct (JSON_parse line) as [data|];
    cbv beta iota delta [ret throw]; [|eexists; reflexivity].
  destruct (property data "message") as [message|];
    cbv beta iota; [|eexists; reflexivity].
  destruct (Js.truthy message); [|reflexivity].
  destruct (property message "content") as [content|];
    cbv beta iota; [|eexists; reflexivity].
  destruct (Js.truthy content); [|reflexivity].
  destruct content; first [reflexivity | eexists; reflexivity].
Qed.

Lemma for_of_relay_lines (lines : list string) (w : World) :
  snd (for_of lines relay_line w) = with_res (push_chunks (lines_writes lines)) w.
Proof.
  revert w. induction lines as [|line rest IH]; intros w; simpl.
  - now rewrite with_res_push_nil.
  - unfold bind. pose proof (relay_line_run line w) as H.
    destruct (line_outcome line).
    + rewrite H, IH. apply (with_res_push_push [text]).
    + rewrite H. apply IH.
    + destruct H as [e ->]. simpl. now rewrite with_res_push_nil.
Qed.

(** The loop awaits nothing. *)
Lemma for_of_relay_lines_completes (lines : list string) (w : World) :
  fst (for_of lines relay_line w) <> Suspended.
Proof.
  revert w. induction lines as [|line rest IH]; intros w; simpl; [discriminate|].
  unfold bind. pose proof (relay_line_run line w) as H.
  destruct (line_outcome line).
  - rewrite H. apply IH.
  - rewrite H. apply IH.
  - destruct H as [e ->]. discriminate.
Qed.

(** The listener as a whole never throws, and leaves the world as it was
    but for the texts it wrote. *)
Lemma on_data_run (chunk : string) (w : World) :
  on_data chunk w = (Normal tt, with_res (push_chunks (chunk_writes chunk)) w).
Proof.
  unfold on_data, try_catch, chunk_writes.
  set (lines := filter _ _).
  rewrite <- (for_of_relay_lines lines w).
  pose proof (for_of_relay_lines_completes lines w) as H.
  destruct (for_of lines relay_line w) as [[[]|e|] w']; [reflexivity | reflexivity |].
  now destruct H.
Qed.

Lemma for_of_on_data (chunks : list string) (w : World) :
  for_of chunks on_data w = (Normal tt, with_res (push_chunks (relay_writes chunks)) w).
Proof.
  revert w. induction chunks as [|chunk rest IH]; intros w; simpl.
  - now rewrite with_res_push_nil.
  - unfold bind. rewrite on_data_run, IH, with_res_push_push. reflexivity.
Qed.

Lemma deliver_run (feed : Feed) (w : World) :
  deliver feed w =
  (Normal tt,
   with_res (close (closing feed)) (with_res (push_chunks (relay_writes (emitted feed))) w)).
Proof.
  unfold deliver, bind. rewrite for_of_on_data.
  destruct (closing feed); reflexivity.
Qed.

(** ** The streaming relay *)

Lemma chat_stream_resolved (cfg : Config) (up : Upstream) (body : Body.Chat) (feed : Feed) :
  rejected body = false ->
  (forall c, answer_stream up c = Resolve feed) ->
  res (serve cfg up (PostChatStream body))
  = close (closing feed) (push_chunks (relay_writes (emitted feed)) opened_response).
Proof.
  intros Hrej Hup.
  unfold serve, exec, route, chat_stream, bind, try_catch.
  unfold rejected in Hrej. cbv zeta. rewrite Hrej.
  unfold read_config, res_setHeader, axios_post_stream, request, ret.
  cbv beta iota. rewrite Hup. cbv beta iota.
  rewrite deliver_run. reflexivity.
Qed.

Lemma join_nonempty (texts : list string) : join (filter nonempty texts) = join texts.
Proof.
  induction texts as [|t ts IH]; simpl; [reflexivity|].
  unfold nonempty at 1. destruct (String.eqb_spec t EmptyString) as [->|_]; simpl; now rewrite IH.
Qed.

Lemma frame_outcome (f : string * string) :
  is_frame f = true ->
  has_newline (fst f) = false /\ is_blank (fst f) = false
  /\ line_outcome (fst f) = if snd f =? EmptyString then Nothing else Wrote (snd f).
Proof.
  unfold is_frame, line_outcome. destruct f as [line d]; simpl fst; simpl snd.
  intros H. apply andb_true_iff in H as [Hn Hp]. apply negb_true_iff in Hn.
  split; [exact Hn|].
  split.
  - destruct (is_blank line) eqn:B; [|reflexivity].
    now rewrite (blank_not_json line B) in Hp.
  - destruct (JSON_parse line) as [data|]; [|discriminate].
    destruct data as [| | | | |?|members]; try discriminate. simpl in *.
    destruct (Js.lookup "message" members) as [[| | | | |?|inner]|]; try discriminate.
    simpl. destruct (Js.lookup "content" inner) as [[| | | |text|?|?]|]; try discriminate.
    apply String.eqb_eq in Hp. subst d. simpl.
    destruct (text =? EmptyString); reflexivity.
Qed.

Lemma frames_lines (fs : list (string * string)) :
  forallb is_frame fs = true ->
  forallb (fun line => negb (has_newline line)) (map fst fs) = true
  /\ (forall rest, filter (fun line => negb (is_blank line)) (map fst fs ++ rest)
                   = (map fst fs ++ filter (fun line => negb (is_blank line)) rest)%list)
  /\ (forall rest, lines_writes (map fst fs ++ rest)
                   = (filter nonempty (deltas fs) ++ lines_writes rest)%list).
Proof.
  induction fs as [|f fs IH]; intros H; simpl in *.
  - repeat split.
  - apply andb_true_iff in H as [Hf Hfs].
    destruct (frame_outcome f Hf) as (Hn & Hb & Ho).
    destruct (IH Hfs) as (IH1 & IH2 & IH3).
    rewrite Hn, Hb, Ho. simpl. repeat split.
    + exact IH1.
    + intros rest. now rewrite IH2.
    + intros rest. unfold nonempty at 1.
      destruct (snd f =? EmptyString); simpl; now rewrite IH3.
Qed.

(** A chunk of whole frames writes their deltas, the empty ones apart. *)
Lemma frames_chunk_writes (fs : list (string * string)) :
  forallb is_frame fs = true ->
  chunk_writes (frames_chunk fs) = filter nonempty (deltas fs).
Proof.
  intros H. destruct (frames_lines fs H) as (H1 & H2 & H3).
  unfold chunk_writes, frames_chunk.
  rewrite <- (append_empty_r (lines_text (map fst fs))).
  rewrite (split_lines_text _ EmptyString H1), H2, H3. simpl.
  now rewrite app_nil_r.
Qed.


Lemma frames_relay_writes (groups : list (list (string * string))) :
  forallb (forallb is_frame) groups = true ->
  join (relay_writes (map frames_chunk groups)) = join (deltas (concat groups)).
Proof.
  induction groups as [|g gs IH]; intros H; simpl in *; [reflexivity|].
  apply andb_true_iff in H as [Hg Hgs].
  unfold deltas in *. rewrite map_app, !join_app, (frames_chunk_writes g Hg), join_nonempty.
  now rewrite <- IH.
Qed.

Lemma body_text_close (c : Closing) (r : Response) : body_text (close c r) = body_text r.
Proof. destruct c; reflexivity. Qed.

Lemma body_text_opened (texts : list string) :
  body_text (push_chunks texts opened_response) = join texts.
Proof. reflexivity. Qed.

(** Chunks of whole lines, each carrying a plain delta: the client receives
    the deltas, in order. *)
Lemma relay_plain_deltas (cfg : Config) (up : Upstream) (body : Body.Chat)
    (groups : list (list string)) (last : Closing) :
  rejected body = false ->
  (forall c, answer_stream up c
             = Resolve {| emitted := map (fun g => lines_text (map delta_line g)) groups;
                          closing := last |}) ->
  forallb (forallb plain) groups = true ->
  body_text (res (serve cfg up (PostChatStream body))) = join (concat groups).
Proof.
  intros Hrej Hup Hp.
  rewrite (chat_stream_resolved cfg up body _ Hrej Hup). simpl closing; simpl emitted.
  rewrite body_text_close, body_text_opened.
  pose (frames := map (map (fun text => (delta_line text, text))) groups).
  assert (Hc : map (fun g => lines_text (map delta_line g)) groups = map frames_chunk frames).
  { unfold frames, frames_chunk. rewrite map_map. apply map_ext. intros g.
    now rewrite map_map. }
  assert (Hd : deltas (concat frames) = concat groups).
  { unfold frames, deltas. rewrite <- concat_map, map_map. simpl. apply map_id. }
  assert (Hf : forallb (forallb is_frame) frames = true).
  { unfold frames. rewrite forallb_forall in *. intros fs Hin.
    apply in_map_iff in Hin as (g & <- & Hg). specialize (Hp g Hg).
    rewrite forallb_forall in *. intros f Hf.
    apply in_map_iff in Hf as (text & <- & Ht). apply delta_line_is_frame, Hp, Ht. }
  rewrite Hc, (frames_relay_writes frames Hf), Hd. reflexivity.
Qed.

(** C1, as the specification states it, fails: a frame cut by a chunk
    boundary is lost.  The two chunks below concatenate to one complete frame
    carrying "hi"; each half is parsed on its own, neither is JSON, and
    nothing reaches the client. *)
Lemma split_frame_is_lost :
  let line := wire "{'message':{'content':'hi'}}" in
  let feed := {| emitted := [wire "{'message':{'con"; wire "tent':'hi'}}" ++ nl];
                 closing := EndEvent |} in
  is_frame (line, "hi") = true
  /\ join (emitted feed) = frames_chunk [(line, "hi")]
  /\ body_text (res (serve Demo.cfg (Demo.streaming feed) (PostChatStream Demo.text_only))) = EmptyString
  /\ body_text (res (serve Demo.cfg (Demo.streaming feed) (PostChatStream Demo.text_only)))
     <> join (deltas [(line, "hi")]).
Proof. vm_compute. repeat split; discriminate. Qed.

(** C1, amended: when every upstream chunk consists of whole frames
    (newline-terminated JSON lines each carrying a text delta, none cut by a
    chunk boundary), the text written to the client of /api/chat/stream is
    the concatenation of the deltas in arrival order. *)
Theorem relay_whole_frame_chunks
    (cfg : Config) (up : Upstream) (body : Body.Chat)
    (groups : list (list (string * string))) (last : Closing) :
  rejected body = false ->
  (forall c, answer_stream up c
             = Resolve {| emitted := map frames_chunk groups; closing := last |}) ->
  forallb (forallb is_frame) groups = true ->
  body_text (res (serve cfg up (PostChatStream body))) = join (deltas (concat groups)).
Proof.
  intros Hrej Hup Hframes.
  rewrite (chat_stream_resolved cfg up body _ Hrej Hup). simpl closing; simpl emitted.
  rewrite body_text_close, body_text_opened.
  now apply frames_relay_writes.
Qed.

Lemma relay_whole_frame_chunks_witness :
  let groups := [[Demo.frame "Hel"; Demo.frame "lo"]; []; [Demo.frame ", world"]] in
  body_text (res (serve Demo.cfg
                    (Demo.streaming {| emitted := map frames_chunk groups; closing := EndEvent |})
                    (PostChatStream Demo.text_only)))
  = "Hello, world".
Proof.
  intros groups.
  apply (relay_whole_frame_chunks Demo.cfg _ Demo.text_only groups EndEvent).
  - reflexivity.
  - intros c. reflexivity.
  - vm_compute. reflexivity.
Defined.




(** C7: when the upstream stream emits ['error'] after streaming has begun,
    the response is ended at once and nothing is added to it: the chunks the
    client receives are those written for the data events before the
    failure, no JSON document is sent and the status stays 200. *)
Theorem stream_error_ends_silently
    (cfg : Config) (up_before up : Upstream) (body : Body.Chat)
    (arrived : list string) (error : JsError) :
  rejected body = false ->
  (forall c, answer_stream up_before c
             = Resolve {| emitted := arrived; closing := NoEvent |}) ->
  (forall c, answer_stream up c
             = Resolve {| emitted := arrived; closing := ErrorEvent error |}) ->
  let before := res (serve cfg up_before (PostChatStream body)) in
  let after := res (serve cfg up (PostChatStream body)) in
  after = finish before
  /\ chunks after = chunks before
  /\ json after = None
  /\ statusCode after = 200
  /\ ended before = false /\ ended after = true.
Proof.
  intros Hrej Hb Ha before after. subst before after.
  rewrite (chat_stream_resolved cfg up_before body _ Hrej Hb).
  rewrite (chat_stream_resolved cfg up body _ Hrej Ha).
  repeat split.
Qed.

Lemma stream_error_ends_silently_witness :
  let arrived := [frames_chunk [Demo.frame "par"]; frames_chunk [Demo.frame "tial"]] in
  let before := res (serve Demo.cfg
                       (Demo.streaming {| emitted := arrived; closing := NoEvent |})
                       (PostChatStream Demo.text_only)) in
  let after := res (serve Demo.cfg
                      (Demo.streaming {| emitted := arrived; closing := ErrorEvent Demo.reset |})
                      (PostChatStream Demo.text_only)) in
  after = finish before
  /\ chunks after = chunks before
  /\ json after = None
  /\ statusCode after = 200
  /\ ended before = false /\ ended after = true.
Proof.
  intros arrived.
  apply (stream_error_ends_silently Demo.cfg
           (Demo.streaming {| emitted := arrived; closing := NoEvent |})
           (Demo.streaming {| emitted := arrived; closing := ErrorEvent Demo.reset |})
           Demo.text_only arrived Demo.reset).
  - reflexivity.
  - intros c. reflexivity.
  - intros c. reflexivity.
Defined.

(** ** The message list sent upstream *)

(** Case analysis on whatever a handler branches on next. *)
Ltac branch :=
  match goal with
  | |- context [match ?x with _ => _ end] =>
      lazymatch x with
      | context [match _ with _ => _ end] => fail
      | _ => destruct x
      end
  end; cbv beta iota delta [ret throw].

Ltac branches := cbv beta iota delta [ret throw]; repeat branch.

(** The handler makes this one call whatever the upstream answers. *)
Lemma chat_calls (cfg : Config) (up : Upstream) (body : Body.Chat) :
  rejected body = false ->
  calls (serve cfg up (PostChat body)) = [chat_call cfg body].
Proof.
  intros Hrej. unfold rejected in Hrej.
  unfold serve, exec, route, chat, bind, try_catch. cbv zeta. rewrite Hrej.
  unfold read_config, axios_post, request, get, res_status, res_json.
  branches; reflexivity.
Qed.

Lemma stream_calls (cfg : Config) (up : Upstream) (body : Body.Chat) :
  calls (serve cfg up (PostChatStream body))
  = if rejected body then [] else [stream_call cfg body].
Proof.
  unfold rejected, serve, exec, route, chat_stream, bind, try_catch. cbv zeta.
  destruct (negb (given (Body.message body))
            && (length (or_nil (Body.images body)) =? 0)%nat); [reflexivity|].
  unfold read_config, res_setHeader, axios_post_stream, request, ret.
  cbv beta iota.
  match goal with
  | |- context [answer_stream ?u ?c] => destruct (answer_stream u c) as [feed|e|]
  end; cbv beta iota; [rewrite deliver_run| |]; reflexivity.
Qed.

Lemma forEach_image_lines (images : list Body.Image) :
  forall index text,
    forEach_from index images
      (fun userMessage img index =>
         userMessage ++ nl ++ "Image " ++ decimal (index + 1) ++ ": " ++ Body.name img
           ++ " (" ++ Body.type img ++ ")") text
    = text ++ join (map (fun line => nl ++ line) (image_lines_from index images)).
Proof.
  induction images as [|img rest IH]; intros index text; simpl.
  - now rewrite append_empty_r.
  - rewrite IH, append_assoc. reflexivity.
Qed.

Lemma image_lines_from_length (images : list Body.Image) :
  forall index, length (image_lines_from index images) = length images.
Proof. induction images as [|img rest IH]; intros index; simpl; [reflexivity | now rewrite IH]. Qed.

Lemma image_lines_from_nth (images : list Body.Image) :
  forall index i img,
    nth_error images i = Some img ->
    nth_error (image_lines_from index images) i = Some (image_line (index + i) img).
Proof.
  induction images as [|x rest IH]; intros index [|i] img H; simpl in *; try discriminate.
  - injection H as ->. now rewrite Nat.add_0_r.
  - rewrite (IH (S index) i img H). now rewrite Nat.add_succ_r.
Qed.

Lemma chat_user_message_images (message : option string) (images : list Body.Image) :
  images <> [] ->
  chat_user_message message images
  = annotated message (length images)
      ++ join (map (fun line => nl ++ line) (image_lines images)).
Proof.
  intros Hne. unfold chat_user_message, annotated, forEach, image_lines.
  destruct images as [|img rest]; [contradiction|].
  cbv zeta. change (0 <? length (img :: rest))%nat with true. cbv iota.
  rewrite forEach_image_lines.
  destruct message as [text|]; simpl given; simpl or_empty; [|reflexivity].
  destruct (text =? EmptyString); reflexivity.
Qed.

(** C3, as stated, fails for "every chat endpoint that accepts images".
    POST /api/chat/multimodal accepts images and sends them as parts of a
    structured user turn, a placeholder for each, without any
    [Image i: name (type)] line; POST /api/chat/stream appends the count
    annotation and nothing else. *)
Lemma other_routes_list_no_image :
  map upstream_messages (calls (serve Demo.cfg Demo.down (PostChatMultimodal Demo.with_images)))
  = [[system_turn;
      JObject [("role", JString "user");
               ("content",
                JArray [JObject [("type", JString "text"); ("text", JString "look")];
                        JObject [("type", JString "image");
                                 ("source", JString "data:image/png;base64,[image_data_here]")];
                        JObject [("type", JString "image");
                                 ("source", JString "data:image/jpeg;base64,[image_data_here]")]])]]]
  /\ map upstream_messages (calls (serve Demo.cfg Demo.down (PostChatStream Demo.with_images)))
     = [[system_turn; user_turn ("look" ++ nl ++ nl ++ "[User attached 2 image(s)]")]]
  /\ includes ("look" ++ nl ++ nl ++ "[User attached 2 image(s)]") "Image 1:" = false.
Proof. vm_compute. repeat split. Qed.

(** C3, amended: for every POST /api/chat request whose images list has
    length N > 0, the user turn sent upstream is the message text followed by
    the count annotation (or the count annotation alone when no text was
    given), followed by exactly N lines [Image i: name (type)], one per image,
    i running from 1 to N in input order. *)
Theorem chat_lists_every_image (cfg : Config) (up : Upstream) (body : Body.Chat) :
  let images := or_nil (Body.images body) in
  images <> [] ->
  map upstream_messages (calls (serve cfg up (PostChat body)))
  = [((system_turn :: map turn_object (or_nil (Body.conversation_history body)))
        ++ [user_turn (annotated (Body.message body) (length images)
                         ++ join (map (fun line => nl ++ line) (image_lines images)))%string])%list]
  /\ length (image_lines images) = length images
  /\ forall i img,
       nth_error images i = Some img ->
       nth_error (image_lines images) i
       = Some ("Image " ++ decimal (i + 1) ++ ": " ++ Body.name img
                 ++ " (" ++ Body.type img ++ ")").
Proof.
  intros images Hne. repeat split.
  - assert (Hrej : rejected body = false).
    { unfold rejected. fold images. destruct images; [contradiction|].
      simpl. apply andb_false_r. }
    rewrite (chat_calls cfg up body Hrej). unfold chat_call. simpl map.
    unfold upstream_messages. simpl. fold images.
    now rewrite (chat_user_message_images _ images Hne).
  - apply image_lines_from_length.
  - intros i img H. apply (image_lines_from_nth images 0 i img H).
Qed.

Lemma chat_lists_every_image_witness :
  map upstream_messages (calls (serve Demo.cfg Demo.down (PostChat Demo.with_images)))
  = [[system_turn;
      user_turn ("look" ++ nl ++ nl ++ "[User attached 2 image(s). Please respond accordingly.]"
                   ++ nl ++ "Image 1: cat.png (image/png)"
                   ++ nl ++ "Image 2: dog.jpg (image/jpeg)")]].
Proof.
  destruct (chat_lists_every_image Demo.cfg Demo.down Demo.with_images) as (H & _ & _).
  - discriminate.
  - exact H.
Defined.

(** C4, as stated, fails for "every valid request": POST
    /api/chat/multimodal takes the same body, and for a non-empty message
    and no image its final user turn carries an array holding one text part,
    not the message itself. *)
Lemma multimodal_sends_parts_not_message :
  Body.message Demo.text_only = Some "hello"
  /\ or_nil (Body.images Demo.text_only) = []
  /\ map upstream_messages
       (calls (serve Demo.cfg Demo.down (PostChatMultimodal Demo.text_only)))
     = [[JObject [("role", JString "system"); ("content", JString SYSTEM_PROMPT)];
         JObject [("role", JString "user");
                  ("content",
                   JArray [JObject [("type", JString "text");
                                    ("text", JString "hello")]])]]]
  /\ map upstream_messages
       (calls (serve Demo.cfg Demo.down (PostChatMultimodal Demo.text_only)))
     <> [[JObject [("role", JString "system"); ("content", JString SYSTEM_PROMPT)];
          JObject [("role", JString "user"); ("content", JString "hello")]]].
Proof. vm_compute. repeat split. discriminate. Qed.

(** C4, amended: for a request to POST /api/chat or to POST
    /api/chat/stream with a non-empty message and no image, the messages
    sent upstream are the system turn with the fixed prompt, then every
    history turn with its role and content, in order, then one user turn
    whose content is the message. *)
Theorem chat_routes_send_system_history_message
    (cfg : Config) (up : Upstream) (post : Body.Chat -> Request)
    (body : Body.Chat) (text : string) :
  post = PostChat \/ post = PostChatStream ->
  Body.message body = Some text ->
  text <> EmptyString ->
  or_nil (Body.images body) = [] ->
  map upstream_messages (calls (serve cfg up (post body)))
  = [(JObject [("role", JString "system"); ("content", JString SYSTEM_PROMPT)]
        :: map (fun msg => JObject [("role", JString (Body.role msg));
                                    ("content", JString (Body.content msg))])
             (or_nil (Body.conversation_history body))
        ++ [JObject [("role", JString "user"); ("content", JString text)]])%list].
Proof.
  intros Hpost Hm Hne Hi.
  assert (Hg : given (Body.message body) = true).
  { rewrite Hm. simpl. now apply negb_true_iff, String.eqb_neq. }
  assert (Hrej : rejected body = false).
  { unfold rejected. now rewrite Hg. }
  destruct Hpost as [-> | ->].
  - rewrite (chat_calls cfg up body Hrej). unfold chat_call, chat_user_message.
    rewrite Hi, Hm. reflexivity.
  - rewrite stream_calls, Hrej. unfold stream_call, stream_user_message.
    rewrite Hi, Hm. reflexivity.
Qed.

Lemma chat_routes_send_system_history_message_witness :
  let sent :=
    [[JObject [("role", JString "system"); ("content", JString SYSTEM_PROMPT)];
      JObject [("role", JString "user"); ("content", JString "tell me a story")];
      JObject [("role", JString "assistant"); ("content", JString "Once upon a time")];
      JObject [("role", JString "user"); ("content", JString "and then?")]]] in
  map upstream_messages (calls (serve Demo.cfg Demo.down (PostChat Demo.with_history)))
  = sent
  /\ map upstream_messages
       (calls (serve Demo.cfg Demo.down (PostChatStream Demo.with_history)))
     = sent.
Proof.
  intros sent. split.
  - apply (chat_routes_send_system_history_message Demo.cfg Demo.down PostChat
             Demo.with_history "and then?").
    + left. reflexivity.
    + reflexivity.
    + discriminate.
    + reflexivity.
  - apply (chat_routes_send_system_history_message Demo.cfg Demo.down PostChatStream
             Demo.with_history "and then?").
    + right. reflexivity.
    + reflexivity.
    + discriminate.
    + reflexivity.
Defined.

(** C5: a body of POST /api/chat with neither [message] nor [images] is
    answered 400 with an error naming the missing fields, and no upstream
    call is made. *)
Theorem chat_requires_message_or_images (cfg : Config) (up : Upstream) (body : Body.Chat) :
  Body.message body = None ->
  Body.images body = None ->
  let w := serve cfg up (PostChat body) in
  statusCode (res w) = 400
  /\ json (res w) = Some (JObject [("error", JString "Message or images are required")])
  /\ ended (res w) = true
  /\ calls w = [].
Proof.
  intros Hm Hi w. subst w.
  unfold serve, exec, route, chat, try_catch, bind. cbv zeta.
  rewrite Hm, Hi. repeat split.
Qed.

Lemma chat_requires_message_or_images_witness :
  let w := serve Demo.cfg Demo.down (PostChat Demo.empty_body) in
  statusCode (res w) = 400
  /\ json (res w) = Some (JObject [("error", JString "Message or images are required")])
  /\ ended (res w) = true
  /\ calls w = [].
Proof.
  apply (chat_requires_message_or_images Demo.cfg Demo.down Demo.empty_body); reflexivity.
Defined.

(** C10: the three chat routes test the truthiness of [message]: with no
    image, a body whose message is the empty string is answered exactly as
    one without message, 400 and no upstream call. *)
Theorem empty_message_is_rejected
    (cfg : Config) (up : Upstream) (post : Body.Chat -> Request)
    (images : option (list Body.Image)) (history : option (list Body.Turn))
    (model : option string) :
  In post [PostChat; PostChatStream; PostChatMultimodal] ->
  or_nil images = [] ->
  let empty := {| Body.message := Some EmptyString; Body.images := images;
                  Body.conversation_history := history; Body.model := model |} in
  let absent := {| Body.message := None; Body.images := images;
                   Body.conversation_history := history; Body.model := model |} in
  let w := serve cfg up (post empty) in
  w = serve cfg up (post absent)
  /\ statusCode (res w) = 400
  /\ json (res w) = Some (JObject [("error", JString "Message or images are required")])
  /\ calls w = [].
Proof.
  intros Hr Hi empty absent w. subst w empty absent.
  destruct Hr as [<-|[<-|[<-|[]]]];
    unfold serve, exec, route, chat, chat_stream, chat_multimodal, try_catch, bind;
    cbv zeta; cbn [Body.message Body.images]; rewrite Hi; repeat split.
Qed.

Lemma empty_message_is_rejected_witness :
  let empty := {| Body.message := Some EmptyString; Body.images := Some [];
                  Body.conversation_history := None; Body.model := None |} in
  let absent := {| Body.message := None; Body.images := Some [];
                   Body.conversation_history := None; Body.model := None |} in
  let w := serve Demo.cfg Demo.down (PostChatStream empty) in
  w = serve Demo.cfg Demo.down (PostChatStream absent)
  /\ statusCode (res w) = 400
  /\ json (res w) = Some (JObject [("error", JString "Message or images are required")])
  /\ calls w = [].
Proof.
  apply (empty_message_is_rejected Demo.cfg Demo.down PostChatStream (Some []) None None).
  - right; left; reflexivity.
  - reflexivity.
Defined.

(** ** A refused connection *)

(** C6: POST /api/chat/stream with a valid body, the upstream refusing the
    connection.  The claim asks for 503 and a message telling what to do, as
    the two sibling routes answer; the catch block of the streaming route
    answers 500 [Stream setup failed]. *)
Lemma stream_setup_refused_is_500 :
  Error.code Demo.refused = Some "ECONNREFUSED"
  /\ rejected Demo.text_only = false
  /\ statusCode (res (serve Demo.cfg Demo.down (PostChatStream Demo.text_only))) = 500
  /\ json (res (serve Demo.cfg Demo.down (PostChatStream Demo.text_only)))
     = Some (JObject [("error", JString "Stream setup failed")])
  /\ statusCode (res (serve Demo.cfg Demo.down (PostChat Demo.text_only))) = 503
  /\ statusCode (res (serve Demo.cfg Demo.down (PostChatMultimodal Demo.text_only))) = 503.
Proof. vm_compute. repeat split. Qed.

(** What each chat route answers when the connection is refused: the plain
    and the multimodal routes tell to start Ollama with a 503, the streaming
    route does not; each of them has called upstream once. *)
Lemma refused_connection_is_reported
    (cfg : Config) (up : Upstream) (body : Body.Chat) (error : JsError) :
  rejected body = false ->
  Error.code error = Some "ECONNREFUSED" ->
  (forall c, answer up c = Reject error) ->
  (forall c, answer_stream up c = Reject error) ->
  let plain := serve cfg up (PostChat body) in
  let multimodal := serve cfg up (PostChatMultimodal body) in
  let stream := serve cfg up (PostChatStream body) in
  (statusCode (res plain) = 503
   /\ json (res plain)
      = Some (JObject [("error", JString "Ollama is not running. Please start Ollama first.");
                       ("details", JString "Run: ollama serve")])
   /\ length (calls plain) = 1)
  /\ (statusCode (res multimodal) = 503
      /\ json (res multimodal)
         = Some (JObject [("error", JString "Ollama is not running");
                          ("details", JString "Please start Ollama first: ollama serve")])
      /\ length (calls multimodal) = 1)
  /\ (statusCode (res stream) = 500
      /\ json (res stream) = Some (JObject [("error", JString "Stream setup failed")])
      /\ chunks (res stream) = []
      /\ length (calls stream) = 1).
Proof.
  intros Hrej Hcode Hup Hus plain multimodal stream. subst plain multimodal stream.
  unfold rejected in Hrej.
  assert (Hc : is_code error "ECONNREFUSED" = true)
    by (unfold is_code; now rewrite Hcode).
  unfold serve, exec, route, chat, chat_multimodal, chat_stream, bind, try_catch.
  cbv zeta. rewrite Hrej.
  unfold read_config, res_setHeader, axios_post, axios_post_stream, request.
  cbv beta iota. rewrite !Hup, !Hus. cbv beta iota. rewrite Hc.
  repeat split.
Qed.

Lemma refused_connection_is_reported_witness :
  let plain := serve Demo.cfg Demo.down (PostChat Demo.text_only) in
  let multimodal := serve Demo.cfg Demo.down (PostChatMultimodal Demo.text_only) in
  let stream := serve Demo.cfg Demo.down (PostChatStream Demo.text_only) in
  (statusCode (res plain) = 503
   /\ json (res plain)
      = Some (JObject [("error", JString "Ollama is not running. Please start Ollama first.");
                       ("details", JString "Run: ollama serve")])
   /\ length (calls plain) = 1)
  /\ (statusCode (res multimodal) = 503
      /\ json (res multimodal)
         = Some (JObject [("error", JString "Ollama is not running");
                          ("details", JString "Please start Ollama first: ollama serve")])
      /\ length (calls multimodal) = 1)
  /\ (statusCode (res stream) = 500
      /\ json (res stream) = Some (JObject [("error", JString "Stream setup failed")])
      /\ chunks (res stream) = []
      /\ length (calls stream) = 1).
Proof.
  apply (refused_connection_is_reported Demo.cfg Demo.down Demo.text_only Demo.refused).
  - reflexivity.
  - reflexivity.
  - intros c. reflexivity.
  - intros c. reflexivity.
Defined.

(** ** The configuration is read-only *)

Lemma keeps_ret {A} (a : A) : keeps_config (ret a).
Proof. intros w. now split. Qed.

Lemma keeps_throw {A} (e : JsError) : keeps_config (@throw A e).
Proof. intros w. now split. Qed.

Lemma keeps_bind {A B} (c : M A) (k : A -> M B) :
  keeps_config c -> (forall a, keeps_config (k a)) -> keeps_config (bind c k).
Proof.
  intros Hc Hk w. unfold bind. specialize (Hc w).
  destruct (c w) as [[a|e|] w']; simpl in *.
  - destruct (Hk a w') as [H1 H2]. destruct Hc as [H3 H4]. split; congruence.
  - exact Hc.
  - exact Hc.
Qed.

Lemma keeps_try_catch {A} (body : M A) (handler : JsError -> M A) :
  keeps_config body -> (forall e, keeps_config (handler e)) ->
  keeps_config (try_catch body handler).
Proof.
  intros Hb Hh w. unfold try_catch. specialize (Hb w).
  destruct (body w) as [[a|e|] w']; simpl in *.
  - exact Hb.
  - destruct (Hh e w') as [H1 H2]. destruct Hb as [H3 H4]. split; congruence.
  - exact Hb.
Qed.

Lemma keeps_with_res (f : Response -> Response) :
  keeps_config (fun w => (Normal tt, with_res f w)).
Proof. intros w. now split. Qed.

Lemma keeps_read_config : keeps_config read_config.
Proof. intros w. now split. Qed.

Lemma keeps_res_write (chunk : JsValue) : keeps_config (res_write chunk).
Proof. destruct chunk; intros w; now split. Qed.

Lemma keeps_request {A} (reply : Upstream -> Call -> Reply A) (c : Call) :
  keeps_config (request reply c).
Proof. intros w. unfold request. destruct (reply (upstream w) c); now split. Qed.

Lemma keeps_get (value : JsValue) (key : string) : keeps_config (get value key).
Proof. unfold get. destruct (property value key); intros w; now split. Qed.

Lemma keeps_JSON_parse (text : string) : keeps_config (JSON_parse_or_throw text).
Proof. unfold JSON_parse_or_throw. destruct (JSON_parse text); intros w; now split. Qed.

Lemma keeps_for_of {A} (xs : list A) (body : A -> M unit) :
  (forall x, keeps_config (body x)) -> keeps_config (for_of xs body).
Proof.
  intros H. induction xs as [|x rest IH]; simpl.
  - apply keeps_ret.
  - apply keeps_bind; [apply H | intros _; exact IH].
Qed.

Lemma keeps_some_item (items : list JsValue) (p : JsValue -> M bool) :
  (forall m, keeps_config (p m)) -> keeps_config (some_item items p).
Proof.
  intros H. induction items as [|m rest IH]; simpl.
  - apply keeps_ret.
  - apply keeps_bind; [apply H|]. intros []; [apply keeps_ret | exact IH].
Qed.

Create HintDb keeps discriminated.
#[local] Hint Resolve keeps_ret keeps_throw keeps_read_config keeps_res_write
  keeps_request keeps_get keeps_JSON_parse : keeps.
#[local] Hint Extern 1 (keeps_config (res_status _)) => apply keeps_with_res : keeps.
#[local] Hint Extern 1 (keeps_config (res_json _)) => apply keeps_with_res : keeps.
#[local] Hint Extern 1 (keeps_config (res_setHeader _ _)) => apply keeps_with_res : keeps.
#[local] Hint Extern 1 (keeps_config res_end) => apply keeps_with_res : keeps.
#[local] Hint Extern 1 (keeps_config (axios_post _ _ _)) => apply keeps_request : keeps.
#[local] Hint Extern 1 (keeps_config (axios_post_stream _ _ _)) => apply keeps_request : keeps.
#[local] Hint Extern 1 (keeps_config (axios_get _)) => apply keeps_request : keeps.

(** Goes through the statements of a handler. *)
Ltac keeps :=
  repeat first
    [ progress cbv zeta
    | apply keeps_bind
    | apply keeps_try_catch
    | apply keeps_for_of
    | apply keeps_some_item
    | match goal with
      | |- forall _, _ => intro
      | |- keeps_config (if ?b then _ else _) => destruct b
      | |- keeps_config (match ?x with _ => _ end) => destruct x
      end
    | solve [auto with keeps] ].

Lemma keeps_on_data (chunk : string) : keeps_config (on_data chunk).
Proof. unfold on_data, relay_line. keeps. Qed.

Lemma keeps_route (r : Request) : keeps_config (route r).
Proof.
  destruct r; unfold route.
  - unfold health. keeps.
  - unfold chat. keeps.
  - unfold chat_stream, deliver, on_end, on_error. keeps.
  - unfold chat_multimodal. keeps.
  - unfold switch_model, some. keeps.
Qed.

(** No request changes the configuration the next one is served with. *)
Lemma serve_config (cfg : Config) (up : Upstream) (r : Request) :
  config (serve cfg up r) = cfg.
Proof. unfold serve, exec. now destruct (keeps_route r (start cfg up)). Qed.

(** ** Switching models *)

Lemma name_test_run (model : string) (m : JsValue) (w : World) :
  (n <- get m "name" ;; ret (is_string n model)) w
  = match property m "name" with
    | Some n => (Normal (is_string n model), w)
    | None => (Thrown (cannot_read m "name"), w)
    end.
Proof. unfold bind, get. destruct (property m "name"); reflexivity. Qed.

Lemma some_item_cons (m : JsValue) (rest : list JsValue) (p : JsValue -> M bool) (w : World) :
  some_item (m :: rest) p w
  = match p m w with
    | (Normal true, w') => (Normal true, w')
    | (Normal false, w') => some_item rest p w'
    | (Thrown e, w') => (Thrown e, w')
    | (Suspended, w') => (Suspended, w')
    end.
Proof. simpl. unfold bind. destruct (p m w) as [[[]|e|] w']; reflexivity. Qed.

Lemma some_item_names (model : string) (items : list JsValue) (w : World) :
  match names_model model items with
  | Some found =>
      some_item items (fun m => n <- get m "name" ;; ret (is_string n model)) w
      = (Normal found, w)
  | None =>
      exists e, some_item items (fun m => n <- get m "name" ;; ret (is_string n model)) w
                = (Thrown e, w)
  end.
Proof.
  induction items as [|m rest IH]; [reflexivity|].
  rewrite some_item_cons, name_test_run. simpl names_model.
  destruct (property m "name") as [n|]; [|eexists; reflexivity].
  destruct (is_string n model); [reflexivity|]. exact IH.
Qed.

Lemma switch_model_run (cfg : Config) (up : Upstream) (name : string)
    (data : JsValue) (found : bool) :
  name <> EmptyString ->
  answer up (tags_call cfg) = Resolve data ->
  lists data name = Some found ->
  serve cfg up (PostSwitchModel (Some name))
  = {| config := cfg; upstream := up;
       res := if found
              then send_json
                     (JObject [("success", JBool true);
                               ("message", JString ("Model switched to " ++ name));
                               ("new_model", JString name);
                               ("supports_images", JBool (supports_images name))])
                     fresh_response
              else send_json
                     (JObject [("error", JString ("Model '" ++ name ++ "' not found"))])
                     (set_status 404 fresh_response);
       calls := [tags_call cfg] |}.
Proof.
  intros Hne Hup Hl.
  assert (Hg : given (Some name) = true)
    by (simpl; now apply negb_true_iff, String.eqb_neq).
  unfold serve, exec, route, switch_model, bind at 1, try_catch. rewrite Hg.
  cbv zeta beta iota delta [negb]. simpl or_empty.
  unfold bind at 1, read_config. cbv beta iota.
  unfold bind at 1, axios_get, request. cbv beta iota.
  fold (tags_call (config (start cfg up))). simpl config at 1. simpl upstream.
  rewrite Hup. cbv beta iota.
  unfold lists in Hl. unfold bind at 1, get at 1.
  destruct (property data "models") as [listed|]; [|discriminate].
  cbv beta iota delta [ret]. unfold bind at 1, some.
  destruct (if Js.truthy listed then listed else JArray []) as [| | | | |items|];
    try discriminate.
  cbv beta iota.
  match goal with
  | |- context [some_item items ?p ?w] =>
      assert (Hs : some_item items p w = (Normal found, w))
        by (pose proof (some_item_names name items w) as Hs; rewrite Hl in Hs; exact Hs)
  end.
  rewrite Hs. destruct found; reflexivity.
Qed.

(** C8: POST /api/switch-model answers 200 with [success: true] and
    [new_model] when the upstream lists the model, and 404 when it does not;
    either way the configuration is what it was, so that GET /api/health
    reports, and every later request is served with, the model name and the
    upstream address the server was started with. *)
Theorem switch_model_changes_nothing
    (cfg : Config) (up : Upstream) (name : string) (data : JsValue) (found : bool) :
  name <> EmptyString ->
  (forall c, answer up c = Resolve data) ->
  lists data name = Some found ->
  let w := serve cfg up (PostSwitchModel (Some name)) in
  statusCode (res w) = (if found then 200 else 404)
  /\ json (res w)
     = Some (if found
             then JObject [("success", JBool true);
                           ("message", JString ("Model switched to " ++ name));
                           ("new_model", JString name);
                           ("supports_images", JBool (supports_images name))]
             else JObject [("error", JString ("Model '" ++ name ++ "' not found"))])
  /\ config w = cfg
  /\ (forall up' request, serve (config w) up' request = serve cfg up' request)
  /\ (forall up',
        json (res (serve (config w) up' GetHealth))
        = Some (JObject [("status", JString "OK");
                         ("model", JString (MODEL_NAME cfg));
                         ("ollama_url", JString (OLLAMA_BASE_URL cfg));
                         ("features", JArray [JString "chat"; JString "images";
                                              JString "formatting"])]))
  /\ (forall up' body,
        calls (serve (config w) up' (PostChat body))
        = if rejected body then [] else [chat_call cfg body]).
Proof.
  intros Hne Hup Hl w.
  assert (Hc : config w = cfg) by apply serve_config.
  rewrite Hc. subst w.
  rewrite (switch_model_run cfg up name data found Hne (Hup _) Hl). simpl res.
  split; [destruct found; reflexivity|].
  split; [destruct found; reflexivity|].
  split; [reflexivity|].
  split; [reflexivity|].
  split; [reflexivity|].
  intros up' body. destruct (rejected body) eqn:Hrej.
  - unfold rejected in Hrej.
    unfold serve, exec, route, chat, try_catch, bind. cbv zeta. rewrite Hrej. reflexivity.
  - now apply chat_calls.
Qed.

Lemma switch_model_changes_nothing_witness :
  let data := JObject [("models", JArray [JObject [("name", JString "gemma3:1b")];
                                           JObject [("name", JString "llava:7b")]])] in
  let w := serve Demo.cfg (Demo.answering data) (PostSwitchModel (Some "llava:7b")) in
  statusCode (res w) = 200
  /\ json (res w)
     = Some (JObject [("success", JBool true);
                      ("message", JString "Model switched to llava:7b");
                      ("new_model", JString "llava:7b");
                      ("supports_images", JBool true)])
  /\ config w = Demo.cfg
  /\ (forall up' request, serve (config w) up' request = serve Demo.cfg up' request)
  /\ (forall up',
        json (res (serve (config w) up' GetHealth))
        = Some (JObject [("status", JString "OK");
                         ("model", JString "gemma3:1b");
                         ("ollama_url", JString "http://localhost:11434");
                         ("features", JArray [JString "chat"; JString "images";
                                              JString "formatting"])]))
  /\ (forall up' body,
        calls (serve (config w) up' (PostChat body))
        = if rejected body then [] else [chat_call Demo.cfg body]).
Proof.
  intros data.
  apply (switch_model_changes_nothing Demo.cfg (Demo.answering data) "llava:7b" data true).
  - discriminate.
  - intros c. reflexivity.
  - reflexivity.
Defined.

(** ** Image payloads *)

Lemma multimodal_calls (cfg : Config) (up : Upstream) (body : Body.Chat) :
  calls (serve cfg up (PostChatMultimodal body))
  = if rejected body then [] else [multimodal_call cfg body].
Proof.
  unfold rejected, serve, exec, route, chat_multimodal, bind, try_catch. cbv zeta.
  destruct (negb (given (Body.message body))
            && (length (or_nil (Body.images body)) =? 0)%nat); [reflexivity|].
  unfold read_config, axios_post, request, get, res_status, res_json.
  assert (Hc : multimodal_content (Body.message body) (or_nil (Body.images body))
               = ((if given (Body.message body)
                   then [JObject [("type", JString "text");
                                  ("text", JString (or_empty (Body.message body)))]]
                   else [])
                    ++ map image_part (or_nil (Body.images body)))%list).
  { unfold multimodal_content. now destruct (or_nil (Body.images body)). }
  rewrite Hc. unfold multimodal_call, image_part.
  branches; reflexivity.
Qed.

Lemma multimodal_without_payloads (cfg : Config) (body : Body.Chat) :
  rejected (without_payloads body) = rejected body
  /\ multimodal_call cfg (without_payloads body) = multimodal_call cfg body.
Proof.
  destruct body as [message [images|] history model]; [|split; reflexivity].
  unfold rejected, multimodal_call, without_payloads. simpl.
  rewrite length_map, map_map. split; reflexivity.
Qed.

(** The history reaches the upstream as the body carries it on this route,
    members other than [role] and [content] included; POST /api/chat keeps
    [role] and [content] only. *)
Lemma multimodal_forwards_turns_as_received :
  let body := {| Body.message := Some "look"; Body.images := None;
                 Body.conversation_history := Some [Demo.earlier_turn];
                 Body.model := None |} in
  map upstream_messages (calls (serve Demo.cfg Demo.down (PostChatMultimodal body)))
  = [[system_turn;
      JObject [("role", JString "user"); ("content", JString "what is this?");
               ("timestamp", JString "2024-05-01T10:00:00.000Z")];
      JObject [("role", JString "user");
               ("content",
                JArray [JObject [("type", JString "text"); ("text", JString "look")]])]]]
  /\ map upstream_messages (calls (serve Demo.cfg Demo.down (PostChat body)))
     = [[system_turn;
         JObject [("role", JString "user"); ("content", JString "what is this?")];
         user_turn "look"]].
Proof. vm_compute. split; reflexivity. Qed.

(** C9: what POST /api/chat/multimodal sends upstream does not depend on
    the payloads of the images.  Two bodies that differ only in the [data] of
    their images make the same upstream calls, and in the one call a valid
    body makes each image is the part
    [{ type: 'image', source: 'data:' + type + ';base64,[image_data_here]' }].
    The turns of the history are forwarded as the body carries them, the
    same in both calls. *)
Theorem multimodal_ignores_payloads
    (cfg : Config) (up : Upstream) (body1 body2 : Body.Chat) :
  without_payloads body1 = without_payloads body2 ->
  calls (serve cfg up (PostChatMultimodal body1))
  = calls (serve cfg up (PostChatMultimodal body2))
  /\ calls (serve cfg up (PostChatMultimodal body1))
     = if rejected body1 then [] else [multimodal_call cfg body1].
Proof.
  intros H. split; [|apply multimodal_calls].
  rewrite !multimodal_calls.
  destruct (multimodal_without_payloads cfg body1) as [<- <-].
  destruct (multimodal_without_payloads cfg body2) as [<- <-].
  now rewrite H.
Qed.

Lemma multimodal_ignores_payloads_witness :
  let secret := {| Body.name := "cat.png"; Body.type := "image/png";
                   Body.data := Some "c2VjcmV0IHBpeGVscw==" |} in
  let body1 := {| Body.message := Some "look"; Body.images := Some [Demo.cat];
                  Body.conversation_history := Some [Demo.earlier_turn];
                  Body.model := Some "llava" |} in
  let body2 := {| Body.message := Some "look"; Body.images := Some [secret];
                  Body.conversation_history := Some [Demo.earlier_turn];
                  Body.model := Some "llava" |} in
  calls (serve Demo.cfg Demo.down (PostChatMultimodal body1))
  = calls (serve Demo.cfg Demo.down (PostChatMultimodal body2))
  /\ calls (serve Demo.cfg Demo.down (PostChatMultimodal body1))
     = if rejected body1 then [] else [multimodal_call Demo.cfg body1].
Proof.
  intros secret body1 body2.
  apply (multimodal_ignores_payloads Demo.cfg Demo.down body1 body2).
  reflexivity.
Defined.

(** ** The other routes, and more of the covered ones *)

(** *** Supporting lemmas *)

Lemma reads_only_ret {A} (a : A) : reads_only (ret a).
Proof. intros w. split; [reflexivity | discriminate]. Qed.

Lemma reads_only_throw {A} (e : JsError) : reads_only (@throw A e).
Proof. intros w. split; [reflexivity | discriminate]. Qed.

Lemma reads_only_bind {A B} (c : M A) (k : A -> M B) :
  reads_only c -> (forall a, reads_only (k a)) -> reads_only (bind c k).
Proof.
  intros Hc Hk w. unfold bind. destruct (Hc w) as [Hw Hs].
  destruct (c w) as [[a|e|] w']; simpl in Hw; subst w'.
  - apply Hk.
  - split; [reflexivity | discriminate].
  - now destruct Hs.
Qed.

Lemma reads_only_get (value : JsValue) (key : string) : reads_only (get value key).
Proof.
  unfold get. destruct (property value key); intros w; (split; [reflexivity | discriminate]).
Qed.

Lemma reads_only_includes (value : JsValue) (needle : string) :
  reads_only (includes_method value needle).
Proof. destruct value; intros w; (split; [reflexivity | discriminate]). Qed.

Lemma reads_only_vision (name : JsValue) : reads_only (vision_name name).
Proof.
  unfold vision_name.
  apply reads_only_bind; [apply reads_only_includes|]. intros [|]; [apply reads_only_ret|].
  apply reads_only_bind; [apply reads_only_includes|]. intros [|];
    [apply reads_only_ret | apply reads_only_includes].
Qed.

Lemma reads_only_some_item (items : list JsValue) (p : JsValue -> M bool) :
  (forall m, reads_only (p m)) -> reads_only (some_item items p).
Proof.
  intros H. induction items as [|m rest IH]; simpl; [apply reads_only_ret|].
  apply reads_only_bind; [apply H|]. intros [|]; [apply reads_only_ret | exact IH].
Qed.

Lemma reads_only_find_item (items : list JsValue) (p : JsValue -> M bool) :
  (forall m, reads_only (p m)) -> reads_only (find_item items p).
Proof.
  intros H. induction items as [|m rest IH]; simpl; [apply reads_only_ret|].
  apply reads_only_bind; [apply H|]. intros [|]; [apply reads_only_ret | exact IH].
Qed.

Lemma reads_only_map_items (items : list JsValue) (f : JsValue -> M JsValue) :
  (forall m, reads_only (f m)) -> reads_only (map_items items f).
Proof.
  intros H. induction items as [|m rest IH]; simpl; [apply reads_only_ret|].
  apply reads_only_bind; [apply H|]. intros v.
  apply reads_only_bind; [exact IH|]. intros vs. apply reads_only_ret.
Qed.

Lemma answers_unless_thrown_bind {A B} (c : M A) (k : A -> M B) :
  (forall a, answers_unless_thrown (k a)) -> answers_unless_thrown (bind c k).
Proof.
  intros Hk w. unfold bind. destruct (c w) as [[a|e|] w']; [apply Hk | exact I | exact I].
Qed.

Lemma answers_unless_thrown_json (document : JsValue) :
  answers_unless_thrown (res_json document).
Proof. intros w. split; [reflexivity | discriminate]. Qed.

Lemma answers_status_json (n : nat) (document : JsValue) :
  answers (res_status n ;; res_json document).
Proof. intros w. split; [reflexivity | discriminate]. Qed.

Lemma answers_try_catch {A} (body : M A) (handler : JsError -> M A) :
  answers_unless_thrown body -> (forall e, answers (handler e)) ->
  answers (try_catch body handler).
Proof.
  intros Hb Hh w. unfold try_catch. specialize (Hb w).
  destruct (body w) as [[a|e|] w']; [exact Hb | apply Hh | exact I].
Qed.

Ltac answering :=
  repeat first
    [ progress cbv zeta
    | apply answers_unless_thrown_bind
    | apply answers_unless_thrown_json
    | apply answers_status_json
    | match goal with
      | |- forall _, _ => intro
      | |- answers_unless_thrown (if ?b then _ else _) => destruct b
      | |- answers (if ?b then _ else _) => destruct b
      | |- answers (match ?x with _ => _ end) => destruct x
      end ].

Lemma chat_answers (body : Body.Chat) : answers (chat body).
Proof. unfold chat. apply answers_try_catch; answering. Qed.

Lemma chat_multimodal_answers (body : Body.Chat) : answers (chat_multimodal body).
Proof. unfold chat_multimodal. apply answers_try_catch; answering. Qed.

Lemma switch_model_answers (field : option string) : answers (switch_model field).
Proof. unfold switch_model. apply answers_try_catch; answering. Qed.

Lemma check_ollama_answers : answers check_ollama.
Proof. unfold check_ollama. apply answers_try_catch; answering. Qed.

Lemma model_info_answers : answers model_info.
Proof. unfold model_info. apply answers_try_catch; answering. Qed.

Lemma silent_reads_only {A} (c : M A) : reads_only c -> silent c.
Proof. intros H w. now rewrite (proj1 (H w)). Qed.

Lemma silent_bind {A B} (c : M A) (k : A -> M B) :
  silent c -> (forall a, silent (k a)) -> silent (bind c k).
Proof.
  intros Hc Hk w. unfold bind. specialize (Hc w).
  destruct (c w) as [[a|e|] w']; simpl in Hc; [rewrite Hk | | ]; exact Hc.
Qed.

Lemma silent_with_res (f : Response -> Response) :
  silent (fun w => (Normal tt, with_res f w)).
Proof. intros w. reflexivity. Qed.

Lemma silent_some (models : JsValue) (p : JsValue -> M bool) :
  (forall m, reads_only (p m)) -> silent (some models p).
Proof.
  intros H. apply silent_reads_only. destruct models; try apply reads_only_throw.
  now apply reads_only_some_item.
Qed.

Lemma silent_find (models : JsValue) (p : JsValue -> M bool) :
  (forall m, reads_only (p m)) -> silent (find models p).
Proof.
  intros H. apply silent_reads_only. destruct models; try apply reads_only_throw.
  now apply reads_only_find_item.
Qed.

Lemma silent_map_array (models : JsValue) (f : JsValue -> M JsValue) :
  (forall m, reads_only (f m)) -> silent (map_array models f).
Proof.
  intros H. apply silent_reads_only. destruct models; try apply reads_only_throw.
  now apply reads_only_map_items.
Qed.

Ltac reading :=
  repeat first
    [ apply reads_only_vision
    | apply reads_only_includes
    | apply reads_only_get
    | apply reads_only_ret
    | apply reads_only_bind
    | match goal with |- forall _, _ => intro end ].

Ltac silence :=
  repeat first
    [ progress cbv zeta
    | apply silent_bind
    | apply silent_some
    | apply silent_find
    | apply silent_map_array
    | apply silent_with_res
    | match goal with
      | |- forall _, _ => intro
      | |- silent (get _ _) => apply silent_reads_only, reads_only_get
      | |- silent (ret _) => apply silent_reads_only, reads_only_ret
      | |- silent (if ?b then _ else _) => destruct b
      | |- reads_only _ => solve [reading]
      end ].

(** A handler that reads the configuration, makes one call and goes on
    without calling has made exactly that call, however the call and what
    follows it complete. *)
Lemma calls_of_handler {A B} (reply : Upstream -> Call -> Reply A) (mk : Config -> Call)
    (k : Config -> A -> M B) (handler : JsError -> M B) (w : World) :
  (forall cfg a, silent (k cfg a)) ->
  (forall e, silent (handler e)) ->
  calls (snd (try_catch (cfg <- read_config ;; a <- request reply (mk cfg) ;; k cfg a)
                handler w))
  = (calls w ++ [mk (config w)])%list.
Proof.
  intros Hk Hh. unfold try_catch, bind, read_config, request.
  destruct (reply (upstream w) (mk (config w))) as [a|e|].
  - match goal with
    | |- context [k ?c ?x ?v] =>
        pose proof (Hk c x v) as H; destruct (k c x v) as [[b|e|] w']
    end; simpl in H; [exact H | now rewrite Hh | exact H].
  - now rewrite Hh.
  - reflexivity.
Qed.

Lemma switch_model_calls (cfg : Config) (up : Upstream) (field : option string) :
  calls (serve cfg up (PostSwitchModel field))
  = if given field then [tags_call cfg] else [].
Proof.
  unfold serve, exec, route, switch_model.
  destruct (given field); [|reflexivity]. cbv iota beta delta [negb].
  unfold axios_get.
  apply (calls_of_handler answer tags_call); silence.
Qed.

Lemma check_ollama_calls (cfg : Config) (up : Upstream) :
  calls (exec check_ollama (start cfg up)) = [tags_call cfg].
Proof.
  unfold exec, check_ollama, axios_get.
  apply (calls_of_handler answer tags_call); silence.
Qed.

Lemma model_info_calls (cfg : Config) (up : Upstream) :
  calls (exec model_info (start cfg up)) = [tags_call cfg].
Proof.
  unfold exec, model_info, axios_get.
  apply (calls_of_handler answer tags_call); silence.
Qed.

Lemma not_refused (e : JsError) :
  Error.code e <> Some "ECONNREFUSED" -> is_code e "ECONNREFUSED" = false.
Proof.
  unfold is_code. destruct (Error.code e) as [c|]; [|reflexivity].
  intros H. apply String.eqb_neq. congruence.
Qed.

Lemma on_data_body_text (chunk : string) (w : World) :
  body_text (res (exec (on_data chunk) w))
  = body_text (res w) ++ join (chunk_writes chunk).
Proof.
  unfold exec. rewrite on_data_run. unfold body_text. simpl. apply join_app.
Qed.

Lemma split_lines_from_plain (line : string) :
  forall cur, has_newline line = false -> split_lines_from cur line = [cur ++ line].
Proof.
  induction line as [|c line IH]; intros cur H; simpl in *.
  - now rewrite append_empty_r.
  - apply orb_false_iff in H as [Hc Hl]. rewrite Hc, (IH _ Hl), append_assoc. reflexivity.
Qed.

Lemma not_blank_if_json (line : string) (data : JsValue) :
  JSON_parse line = Some data -> is_blank line = false.
Proof.
  intros H. destruct (is_blank line) eqn:B; [|reflexivity].
  rewrite (blank_not_json line B) in H. discriminate.
Qed.

Lemma names_model_values (model : string) (items : list JsValue) (values : list JsValue) :
  name_values items = Some values ->
  names_model model items = Some (existsb (fun v => is_string v model) values).
Proof.
  revert values. induction items as [|item rest IH]; intros values H; simpl in *.
  - injection H as <-. reflexivity.
  - destruct (property item "name") as [v|]; [|discriminate].
    destruct (name_values rest) as [vs|]; [|discriminate].
    injection H as <-. simpl. destruct (is_string v model); [reflexivity|].
    now apply IH.
Qed.

Lemma named_entry_is_object (item : JsValue) (n : string) :
  property item "name" = Some (JString n) -> Js.truthy item = true.
Proof. destruct item; simpl; intros H; try discriminate; reflexivity. Qed.

Lemma find_item_named (needle : string) (items : list JsValue) (names : list string)
    (w : World) :
  name_values items = Some (map JString names) ->
  exists found,
    find_item items (fun model => n <- get model "name" ;; includes_method n needle) w
    = (Normal found, w)
    /\ Js.truthy found = existsb (fun n => includes n needle) names.
Proof.
  revert names. induction items as [|item rest IH]; intros names H; simpl in H.
  - destruct names; [|discriminate]. exists JUndefined. split; reflexivity.
  - destruct (property item "name") as [v|] eqn:Hp; [|discriminate].
    destruct (name_values rest) as [vs|] eqn:Hr; [|discriminate].
    destruct names as [|n ns]; [discriminate|]. simpl in H.
    injection H as -> ->.
    simpl find_item. unfold bind at 1. unfold bind at 1. unfold get. rewrite Hp.
    cbv beta iota delta [ret includes_method]. simpl existsb.
    destruct (includes n needle).
    + exists item. split; [reflexivity | exact (named_entry_is_object item n Hp)].
    + destruct (IH ns eq_refl) as (found & Hf & Ht). exists found. split; assumption.
Qed.

Lemma map_items_names (items : list JsValue) (values : list JsValue) (w : World) :
  name_values items = Some values ->
  map_items items (fun m => get m "name") w = (Normal values, w).
Proof.
  revert values. induction items as [|item rest IH]; intros values H; simpl in *.
  - injection H as <-. reflexivity.
  - destruct (property item "name") as [v|] eqn:Hp; [|discriminate].
    destruct (name_values rest) as [vs|]; [|discriminate].
    injection H as <-. unfold bind at 1. unfold get at 1. rewrite Hp.
    cbv beta iota delta [ret]. unfold bind at 1. now rewrite (IH vs eq_refl).
Qed.

Lemma bind_step {A B} (c : M A) (k : A -> M B) (w w1 : World) (x : A)
    (r : Completion B * World) :
  c w = (Normal x, w1) -> k x w1 = r -> bind c k w = r.
Proof. intros Hc Hk. unfold bind. now rewrite Hc. Qed.

Lemma bind_thrown {A B} (c : M A) (k : A -> M B) (w w1 : World) (e : JsError) :
  c w = (Thrown e, w1) -> bind c k w = (Thrown e, w1).
Proof. intros Hc. unfold bind. now rewrite Hc. Qed.

Lemma try_catch_normal {A} (body : M A) (handler : JsError -> M A) (w w1 : World) (a : A) :
  body w = (Normal a, w1) -> try_catch body handler w = (Normal a, w1).
Proof. intros H. unfold try_catch. now rewrite H. Qed.

Lemma try_catch_thrown {A} (body : M A) (handler : JsError -> M A) (w w1 : World)
    (e : JsError) :
  body w = (Thrown e, w1) -> try_catch body handler w = handler e w1.
Proof. intros H. unfold try_catch. now rewrite H. Qed.

Lemma tags_resolved (cfg : Config) (up : Upstream) (data : JsValue) :
  answer up (tags_call cfg) = Resolve data ->
  axios_get (OLLAMA_BASE_URL cfg ++ "/api/tags") (start cfg up) = (Normal data, asked cfg up).
Proof. intros H. unfold axios_get, request. simpl. fold (tags_call cfg). now rewrite H. Qed.

Lemma named_entry_fields (item : JsValue) (n : string) (key : string) :
  property item "name" = Some (JString n) -> property item key = Some (field item key).
Proof. unfold field. destruct item; simpl; intros H; try discriminate; reflexivity. Qed.

Lemma vision_name_string (n : string) (w : World) :
  vision_name (JString n) w = (Normal (supports_images n), w).
Proof.
  unfold vision_name, supports_images, bind, includes_method, ret.
  destruct (includes n "llava"); [reflexivity|].
  destruct (includes n "bakllava"); reflexivity.
Qed.

Lemma describe_named (item : JsValue) (n : string) (w : World) :
  property item "name" = Some (JString n) ->
  describe item w = (Normal (info_entry item n), w).
Proof.
  intros H. unfold describe.
  eapply bind_step; [unfold get; rewrite H; reflexivity|]. cbv beta.
  eapply bind_step;
    [unfold get; rewrite (named_entry_fields item n "size" H); reflexivity|]. cbv beta.
  eapply bind_step;
    [unfold get; rewrite (named_entry_fields item n "modified" H); reflexivity|]. cbv beta.
  eapply bind_step; [apply vision_name_string|]. cbv beta.
  eapply bind_step; [apply vision_name_string|]. cbv beta.
  reflexivity.
Qed.

Lemma describe_unnamed (members : list (string * JsValue)) (w : World) :
  Js.lookup "name" members = None ->
  exists e, describe (JObject members) w = (Thrown e, w).
Proof.
  intros H. unfold describe.
  assert (Hp : forall key, property (JObject members) key = Some (field (JObject members) key))
    by reflexivity.
  assert (Hf : field (JObject members) "name" = JUndefined)
    by (unfold field, property; now rewrite H).
  eexists.
  eapply bind_step; [unfold get; rewrite Hp, Hf; reflexivity|]. cbv beta.
  eapply bind_step; [unfold get; rewrite Hp; reflexivity|]. cbv beta.
  eapply bind_step; [unfold get; rewrite Hp; reflexivity|]. cbv beta.
  reflexivity.
Qed.

Lemma reads_only_describe (model : JsValue) : reads_only (describe model).
Proof. unfold describe. reading. Qed.

Lemma map_items_describe (items : list JsValue) (names : list string) (w : World) :
  name_values items = Some (map JString names) ->
  map_items items describe w
  = (Normal (map (fun entry => info_entry (fst entry) (snd entry)) (combine items names)), w).
Proof.
  revert names. induction items as [|item rest IH]; intros names H; simpl in H.
  - destruct names; [reflexivity | discriminate].
  - destruct (property item "name") as [v|] eqn:Hp; [|discriminate].
    destruct (name_values rest) as [vs|] eqn:Hr; [|discriminate].
    destruct names as [|n ns]; [discriminate|]. simpl in H. injection H as -> ->.
    simpl map_items.
    eapply bind_step; [apply (describe_named item n w Hp)|]. cbv beta.
    eapply bind_step; [apply (IH ns eq_refl)|]. reflexivity.
Qed.

Lemma map_items_describe_unnamed (items : list JsValue) (members : list (string * JsValue))
    (w : World) :
  In (JObject members) items ->
  Js.lookup "name" members = None ->
  exists e, map_items items describe w = (Thrown e, w).
Proof.
  intros Hin Hn. induction items as [|item rest IH]; [contradiction|].
  simpl map_items. unfold bind at 1.
  destruct (reads_only_describe item w) as [Hr Hs].
  destruct (describe item w) as [[v|e|] w'] eqn:Hd; simpl in Hr; subst w'.
  - destruct Hin as [->|Hin].
    + destruct (describe_unnamed members w Hn) as [e He]. congruence.
    + destruct (IH Hin) as [e He]. exists e. unfold bind. now rewrite He.
  - exists e. reflexivity.
  - now destruct Hs.
Qed.

Lemma includes_cons (c : ascii) (r needle : string) :
  includes (String c r) needle = String.prefix needle (String c r) || includes r needle.
Proof. reflexivity. Qed.

Lemma prefix_split (p : string) :
  forall s, String.prefix p s = true -> exists rest, s = p ++ rest.
Proof.
  induction p as [|a p IH]; intros s H.
  - exists s. reflexivity.
  - destruct s as [|b s]; [discriminate|]. simpl in H.
    destruct (ascii_dec a b) as [E|]; [subst b|discriminate].
    destruct (IH s H) as [rest ->]. exists rest. reflexivity.
Qed.

Lemma bakllava_has_llava (text : string) :
  includes text "bakllava" = true -> includes text "llava" = true.
Proof.
  induction text as [|c r IH]; [discriminate|].
  rewrite !includes_cons. intros H. apply orb_true_iff in H as [H|H].
  - destruct (prefix_split _ _ H) as [rest E].
    rewrite <- includes_cons, E. destruct rest; reflexivity.
  - rewrite (IH H). apply orb_true_r.
Qed.

(** *** Properties of the code beyond the claims *)

(** X1: the upstream calls a request leads to are decided by the request
    and the configuration alone, whatever the upstream answers: none for
    /api/health and for a body that fails validation, exactly one otherwise,
    and exactly one [GET /api/tags] for /api/check-ollama and
    /api/model-info.  No handler calls a second time. *)
Theorem upstream_traffic_follows_request (cfg : Config) (up : Upstream) (r : Request) :
  calls (serve cfg up r) = planned_calls cfg r
  /\ calls (exec check_ollama (start cfg up)) = [tags_call cfg]
  /\ calls (exec model_info (start cfg up)) = [tags_call cfg].
Proof.
  split; [|split; [apply check_ollama_calls | apply model_info_calls]].
  destruct r as [|body|body|body|field]; simpl planned_calls.
  - reflexivity.
  - destruct (rejected body) eqn:Hrej; [|now apply chat_calls].
    unfold rejected in Hrej.
    unfold serve, exec, route, chat, try_catch, bind. cbv zeta. now rewrite Hrej.
  - apply stream_calls.
  - apply multimodal_calls.
  - apply switch_model_calls.
Qed.

(** **** Handlers that complete *)

Lemma completes_reads_only {A} (c : M A) : reads_only c -> completes c.
Proof. intros H w _. destruct (H w) as [Hw Hs]. split; [exact Hs | now rewrite Hw]. Qed.

Lemma completes_bind {A B} (c : M A) (k : A -> M B) :
  completes c -> (forall a, completes (k a)) -> completes (bind c k).
Proof.
  intros Hc Hk w Hup. unfold bind. destruct (Hc w Hup) as [Hs Hu].
  destruct (c w) as [[a|e|] w']; simpl in Hs, Hu.
  - rewrite <- Hu in Hup. destruct (Hk a w' Hup) as [H1 H2]. split; congruence.
  - split; [discriminate | exact Hu].
  - now destruct Hs.
Qed.

Lemma completes_try_catch {A} (body : M A) (handler : JsError -> M A) :
  completes body -> (forall e, completes (handler e)) ->
  completes (try_catch body handler).
Proof.
  intros Hb Hh w Hup. unfold try_catch. destruct (Hb w Hup) as [Hs Hu].
  destruct (body w) as [[a|e|] w']; simpl in Hs, Hu.
  - split; [discriminate | exact Hu].
  - rewrite <- Hu in Hup. destruct (Hh e w' Hup) as [H1 H2]. split; congruence.
  - now destruct Hs.
Qed.

Lemma completes_with_res (f : Response -> Response) :
  completes (fun w => (Normal tt, with_res f w)).
Proof. intros w _. split; [discriminate | reflexivity]. Qed.

Lemma completes_read_config : completes read_config.
Proof. intros w _. split; [discriminate | reflexivity]. Qed.

(** The one place where a handler can stay suspended. *)
Lemma completes_request (c : Call) : completes (request answer c).
Proof.
  intros w Hup. unfold request. specialize (Hup c).
  destruct (answer (upstream w) c); simpl; (split; [|reflexivity]);
    [discriminate | discriminate | now destruct Hup].
Qed.

Lemma completes_some (models : JsValue) (p : JsValue -> M bool) :
  (forall m, reads_only (p m)) -> completes (some models p).
Proof.
  intros H. apply completes_reads_only. destruct models; try apply reads_only_throw.
  now apply reads_only_some_item.
Qed.

Lemma completes_find (models : JsValue) (p : JsValue -> M bool) :
  (forall m, reads_only (p m)) -> completes (find models p).
Proof.
  intros H. apply completes_reads_only. destruct models; try apply reads_only_throw.
  now apply reads_only_find_item.
Qed.

Lemma completes_map_array (models : JsValue) (f : JsValue -> M JsValue) :
  (forall m, reads_only (f m)) -> completes (map_array models f).
Proof.
  intros H. apply completes_reads_only. destruct models; try apply reads_only_throw.
  now apply reads_only_map_items.
Qed.

Ltac completing :=
  repeat first
    [ progress cbv zeta
    | apply completes_bind
    | apply completes_try_catch
    | apply completes_some
    | apply completes_find
    | apply completes_map_array
    | apply completes_with_res
    | apply completes_read_config
    | match goal with
      | |- forall _, _ => intro
      | |- completes (axios_get _) => apply completes_request
      | |- completes (axios_post _ _ _) => apply completes_request
      | |- completes (get _ _) => apply completes_reads_only, reads_only_get
      | |- completes (ret _) => apply completes_reads_only, reads_only_ret
      | |- completes (throw _) => apply completes_reads_only, reads_only_throw
      | |- completes (if ?b then _ else _) => destruct b
      | |- completes (match ?x with _ => _ end) => destruct x
      | |- reads_only _ => solve [reading]
      end ].

Lemma route_completes (r : Request) :
  (forall body, r <> PostChatStream body) -> completes (route r).
Proof.
  intros Hr. destruct r as [|body|body|body|field]; unfold route.
  - unfold health. completing.
  - unfold chat. completing.
  - now destruct (Hr body).
  - unfold chat_multimodal. completing.
  - unfold switch_model. completing.
Qed.

Lemma check_ollama_completes : completes check_ollama.
Proof. unfold check_ollama. completing. Qed.

Lemma model_info_completes : completes model_info.
Proof. unfold model_info. completing. Qed.

Lemma route_answers (r : Request) :
  (forall body, r <> PostChatStream body) -> answers (route r).
Proof.
  intros Hr. destruct r as [|body|body|body|field]; unfold route.
  - intros w. split; [reflexivity | discriminate].
  - apply chat_answers.
  - now destruct (Hr body).
  - apply chat_multimodal_answers.
  - apply switch_model_answers.
Qed.

(** A handler that answers when it completes has answered, when the
    upstream settles its calls. *)
Lemma answered_exec {A} (c : M A) (cfg : Config) (up : Upstream) :
  answers c -> completes c -> settles up -> answered (exec c (start cfg up)).
Proof.
  intros Ha Hc Hup. unfold exec.
  specialize (Ha (start cfg up)). destruct (Hc (start cfg up) Hup) as [Hs _].
  destruct (c (start cfg up)) as [[a|e|] w']; [exact Ha | exact Ha | now destruct Hs].
Qed.

(** The list of models is asked for without a timeout: when that call is
    never settled, the three routes that make it send nothing, not even a
    status. *)
Lemma pending_tags_call_leaves_no_answer (cfg : Config) (up : Upstream) (name : string) :
  answer up (tags_call cfg) = Pending ->
  name <> EmptyString ->
  res (exec check_ollama (start cfg up)) = fresh_response
  /\ res (exec model_info (start cfg up)) = fresh_response
  /\ res (serve cfg up (PostSwitchModel (Some name))) = fresh_response.
Proof.
  intros Hup Hn.
  assert (Hg : given (Some name) = true).
  { simpl. now apply negb_true_iff, String.eqb_neq. }
  unfold serve, exec, route, check_ollama, model_info, switch_model.
  rewrite Hg. cbv iota beta delta [negb].
  unfold try_catch, bind, read_config, axios_get, request. simpl.
  fold (tags_call cfg). rewrite Hup. repeat split.
Qed.

(** X2: every route but the streaming one ends its response with a JSON
    document, whatever the body, whenever the upstream settles the calls made
    to it: resolves them, with a malformed reply or not, or rejects them. *)
Theorem every_request_is_answered (cfg : Config) (up : Upstream) (r : Request) :
  settles up ->
  (forall body, r <> PostChatStream body) ->
  answered (serve cfg up r)
  /\ answered (exec check_ollama (start cfg up))
  /\ answered (exec model_info (start cfg up)).
Proof.
  intros Hup Hr. split; [|split].
  - apply answered_exec; [now apply route_answers | now apply route_completes | exact Hup].
  - apply answered_exec; [apply check_ollama_answers | apply check_ollama_completes | exact Hup].
  - apply answered_exec; [apply model_info_answers | apply model_info_completes | exact Hup].
Qed.

Lemma every_request_is_answered_witness :
  answered (serve Demo.cfg Demo.down (PostChat Demo.text_only))
  /\ answered (exec check_ollama (start Demo.cfg Demo.down))
  /\ answered (exec model_info (start Demo.cfg Demo.down)).
Proof.
  apply (every_request_is_answered Demo.cfg Demo.down (PostChat Demo.text_only)).
  - intros c. discriminate.
  - intros body. discriminate.
Defined.

(** X3: when the upstream reply has [message.content], POST /api/chat
    answers 200 with that content as [response], the configured model, the
    upstream [usage] and the number of images received. *)
Theorem chat_relays_reply
    (cfg : Config) (up : Upstream) (body : Body.Chat) (data reply content : JsValue) :
  rejected body = false ->
  (forall c, answer up c = Resolve data) ->
  property data "message" = Some reply ->
  property reply "content" = Some content ->
  let r := res (serve cfg up (PostChat body)) in
  statusCode r = 200
  /\ json r = Some (JObject [("response", content);
                             ("model", JString (MODEL_NAME cfg));
                             ("usage", field data "usage");
                             ("images_received",
                              Js.number_of_nat (length (or_nil (Body.images body))))]).
Proof.
  intros Hrej Hup Hm Hc r. subst r. unfold rejected in Hrej.
  unfold serve, exec, route, chat, bind, try_catch. cbv zeta. rewrite Hrej.
  unfold read_config, axios_post, request, get, field.
  cbv beta iota. rewrite Hup. cbv beta iota delta [ret]. rewrite Hm. cbv beta iota.
  rewrite Hc. cbv beta iota.
  destruct data; try discriminate; split; reflexivity.
Qed.

Lemma chat_relays_reply_witness :
  let r := res (serve Demo.cfg (Demo.answering Tags.reply) (PostChat Demo.with_images)) in
  statusCode r = 200
  /\ json r = Some (JObject [("response", JString "A cat and a dog.");
                             ("model", JString (MODEL_NAME Demo.cfg));
                             ("usage", field Tags.reply "usage");
                             ("images_received", Js.number_of_nat 2)]).
Proof.
  apply (chat_relays_reply Demo.cfg (Demo.answering Tags.reply) Demo.with_images Tags.reply
           (JObject [("role", JString "assistant"); ("content", JString "A cat and a dog.")])
           (JString "A cat and a dog.")).
  - reflexivity.
  - intros c. reflexivity.
  - reflexivity.
  - reflexivity.
Defined.

(** X4: when the upstream reply has no [message], or a [message] that is
    [null], reading [message.content] throws and POST /api/chat answers 500
    [Internal server error]. *)
Theorem chat_malformed_reply_is_500
    (cfg : Config) (up : Upstream) (body : Body.Chat) (data : JsValue) :
  rejected body = false ->
  (forall c, answer up c = Resolve data) ->
  match property data "message" with
  | Some reply => property reply "content"
  | None => None
  end = None ->
  let r := res (serve cfg up (PostChat body)) in
  statusCode r = 500
  /\ exists details,
       json r = Some (JObject [("error", JString "Internal server error");
                               ("details", JString details)]).
Proof.
  intros Hrej Hup Hm r. subst r. unfold rejected in Hrej.
  unfold serve, exec, route, chat, bind, try_catch. cbv zeta. rewrite Hrej.
  unfold read_config, axios_post, request, get.
  cbv beta iota. rewrite Hup. cbv beta iota delta [ret throw].
  destruct (property data "message") as [reply|]; cbv beta iota.
  - rewrite Hm. cbv beta iota. split; [reflexivity | eexists; reflexivity].
  - split; [reflexivity | eexists; reflexivity].
Qed.

Lemma chat_malformed_reply_is_500_witness :
  let r := res (serve Demo.cfg (Demo.answering (JObject [("done", JBool true)]))
                  (PostChat Demo.text_only)) in
  statusCode r = 500
  /\ exists details,
       json r = Some (JObject [("error", JString "Internal server error");
                               ("details", JString details)]).
Proof.
  apply (chat_malformed_reply_is_500 Demo.cfg (Demo.answering (JObject [("done", JBool true)]))
           Demo.text_only (JObject [("done", JBool true)])).
  - reflexivity.
  - intros c. reflexivity.
  - reflexivity.
Defined.

(** X5: when the upstream answers outside 2xx, POST /api/chat answers with
    the upstream's status, and the upstream's body as [details]. *)
Theorem chat_passes_upstream_error
    (cfg : Config) (up : Upstream) (body : Body.Chat) (e : JsError)
    (status : nat) (data : JsValue) :
  rejected body = false ->
  (forall c, answer up c = Reject e) ->
  Error.code e <> Some "ECONNREFUSED" ->
  Error.response e = Some (status, data) ->
  let r := res (serve cfg up (PostChat body)) in
  statusCode r = status
  /\ json r = Some (JObject [("error", JString "Ollama API error"); ("details", data)]).
Proof.
  intros Hrej Hup Hcode Hresp r. subst r. unfold rejected in Hrej.
  unfold serve, exec, route, chat, bind, try_catch. cbv zeta. rewrite Hrej.
  unfold read_config, axios_post, request.
  cbv beta iota. rewrite Hup. cbv beta iota. rewrite (not_refused e Hcode), Hresp.
  split; reflexivity.
Qed.

Lemma chat_passes_upstream_error_witness :
  let r := res (serve Demo.cfg (Tags.failing Tags.not_found) (PostChat Demo.text_only)) in
  statusCode r = 404
  /\ json r = Some (JObject [("error", JString "Ollama API error");
                             ("details", JObject [("error", JString "model not found")])]).
Proof.
  apply (chat_passes_upstream_error Demo.cfg (Tags.failing Tags.not_found) Demo.text_only
           Tags.not_found 404 (JObject [("error", JString "model not found")])).
  - reflexivity.
  - intros c. reflexivity.
  - discriminate.
  - reflexivity.
Defined.

(** X6: a failed call that is neither a refused connection nor an upstream
    reply (a timeout for one) makes POST /api/chat answer 500 with the
    message of the error as [details]. *)
Theorem chat_other_failure_is_500
    (cfg : Config) (up : Upstream) (body : Body.Chat) (e : JsError) :
  rejected body = false ->
  (forall c, answer up c = Reject e) ->
  Error.code e <> Some "ECONNREFUSED" ->
  Error.response e = None ->
  let r := res (serve cfg up (PostChat body)) in
  statusCode r = 500
  /\ json r = Some (JObject [("error", JString "Internal server error");
                             ("details", JString (Error.message e))]).
Proof.
  intros Hrej Hup Hcode Hresp r. subst r. unfold rejected in Hrej.
  unfold serve, exec, route, chat, bind, try_catch. cbv zeta. rewrite Hrej.
  unfold read_config, axios_post, request.
  cbv beta iota. rewrite Hup. cbv beta iota. rewrite (not_refused e Hcode), Hresp.
  split; reflexivity.
Qed.

Lemma chat_other_failure_is_500_witness :
  let r := res (serve Demo.cfg (Tags.failing Tags.timed_out) (PostChat Demo.text_only)) in
  statusCode r = 500
  /\ json r = Some (JObject [("error", JString "Internal server error");
                             ("details", JString "timeout of 120000ms exceeded")]).
Proof.
  apply (chat_other_failure_is_500 Demo.cfg (Tags.failing Tags.timed_out) Demo.text_only
           Tags.timed_out).
  - reflexivity.
  - intros c. reflexivity.
  - discriminate.
  - reflexivity.
Defined.

(** X7: POST /api/chat/multimodal does not pass upstream errors through:
    an upstream 404 is answered 404 [Model not found or not multimodal], any
    other failure but a refused connection 500 [Multimodal chat failed]. *)
Theorem multimodal_maps_upstream_errors
    (cfg : Config) (up : Upstream) (body : Body.Chat) (e : JsError) :
  rejected body = false ->
  (forall c, answer up c = Reject e) ->
  Error.code e <> Some "ECONNREFUSED" ->
  let r := res (serve cfg up (PostChatMultimodal body)) in
  let not_found := match Error.response e with
                   | Some (status, _) => (status =? 404)%nat
                   | None => false
                   end in
  statusCode r = (if not_found then 404 else 500)
  /\ json r
     = Some (if not_found
             then JObject [("error", JString "Model not found or not multimodal");
                           ("details", JString "The model might not support images. Try a multimodal model like LLaVA.")]
             else JObject [("error", JString "Multimodal chat failed");
                           ("details", JString (Error.message e))]).
Proof.
  intros Hrej Hup Hcode r not_found. subst r. unfold rejected in Hrej.
  unfold serve, exec, route, chat_multimodal, bind, try_catch. cbv zeta. rewrite Hrej.
  unfold read_config, axios_post, request.
  cbv beta iota. rewrite Hup. cbv beta iota. rewrite (not_refused e Hcode).
  fold not_found. change (response_status_is e 404) with not_found.
  destruct not_found; split; reflexivity.
Qed.

Lemma multimodal_maps_upstream_errors_witness :
  let r := res (serve Demo.cfg (Tags.failing Tags.not_found) (PostChatMultimodal Demo.text_only)) in
  let not_found := match Error.response Tags.not_found with
                   | Some (status, _) => (status =? 404)%nat
                   | None => false
                   end in
  statusCode r = (if not_found then 404 else 500)
  /\ json r
     = Some (if not_found
             then JObject [("error", JString "Model not found or not multimodal");
                           ("details", JString "The model might not support images. Try a multimodal model like LLaVA.")]
             else JObject [("error", JString "Multimodal chat failed");
                           ("details", JString (Error.message Tags.not_found))]).
Proof.
  apply (multimodal_maps_upstream_errors Demo.cfg (Tags.failing Tags.not_found)
           Demo.text_only Tags.not_found).
  - reflexivity.
  - intros c. reflexivity.
  - discriminate.
Defined.

(** X8: POST /api/chat/multimodal sends upstream, and reports in its
    answer, the [model] of the body when it is a non-empty string and the
    configured model otherwise. *)
Theorem multimodal_uses_requested_model
    (cfg : Config) (up : Upstream) (body : Body.Chat) (data reply content : JsValue) :
  rejected body = false ->
  (forall c, answer up c = Resolve data) ->
  property data "message" = Some reply ->
  property reply "content" = Some content ->
  let w := serve cfg up (PostChatMultimodal body) in
  let chosen := match Body.model body with
                | Some name => if name =? EmptyString then MODEL_NAME cfg else name
                | None => MODEL_NAME cfg
                end in
  map (fun c => option_map (fun sent => field sent "model") (payload c)) (calls w)
  = [Some (JString chosen)]
  /\ statusCode (res w) = 200
  /\ json (res w)
     = Some (JObject [("response", content);
                      ("model", JString chosen);
                      ("usage", field data "usage");
                      ("multimodal", JBool true);
                      ("images_processed",
                       Js.number_of_nat (length (or_nil (Body.images body))))]).
Proof.
  intros Hrej Hup Hm Hc w chosen. subst w.
  assert (Hch : (if given (Body.model body) then or_empty (Body.model body)
                 else MODEL_NAME cfg) = chosen).
  { unfold chosen. destruct (Body.model body) as [name|]; [|reflexivity].
    simpl. destruct (name =? EmptyString); reflexivity. }
  split.
  - rewrite multimodal_calls, Hrej. unfold multimodal_call. simpl. unfold field. simpl.
    now rewrite Hch.
  - unfold rejected in Hrej.
    unfold serve, exec, route, chat_multimodal, bind, try_catch. cbv zeta. rewrite Hrej.
    unfold read_config, axios_post, request, get, field.
    cbv beta iota. rewrite Hup. cbv beta iota delta [ret]. rewrite Hm. cbv beta iota.
    rewrite Hc. cbv beta iota. simpl config. rewrite Hch.
    destruct data; try discriminate; split; reflexivity.
Qed.

Lemma multimodal_uses_requested_model_witness :
  let body := {| Body.message := Some "look"; Body.images := Some [Demo.cat];
                 Body.conversation_history := None; Body.model := Some "llava:7b" |} in
  let w := serve Demo.cfg (Demo.answering Tags.reply) (PostChatMultimodal body) in
  map (fun c => option_map (fun sent => field sent "model") (payload c)) (calls w)
  = [Some (JString "llava:7b")]
  /\ statusCode (res w) = 200
  /\ json (res w)
     = Some (JObject [("response", JString "A cat and a dog.");
                      ("model", JString "llava:7b");
                      ("usage", field Tags.reply "usage");
                      ("multimodal", JBool true);
                      ("images_processed", Js.number_of_nat 1)]).
Proof.
  intros body.
  apply (multimodal_uses_requested_model Demo.cfg (Demo.answering Tags.reply) body Tags.reply
           (JObject [("role", JString "assistant"); ("content", JString "A cat and a dog.")])
           (JString "A cat and a dog.")).
  - reflexivity.
  - intros c. reflexivity.
  - reflexivity.
  - reflexivity.
Defined.

(** X9: once the upstream stream is open, the response of
    POST /api/chat/stream has status 200 and the text/plain and chunked
    headers, carries no JSON document whatever the stream holds, and is ended
    exactly when the stream has emitted ['end'] or ['error']. *)
Theorem stream_response_is_plain_text
    (cfg : Config) (up : Upstream) (body : Body.Chat) (feed : Feed) :
  rejected body = false ->
  (forall c, answer_stream up c = Resolve feed) ->
  let r := res (serve cfg up (PostChatStream body)) in
  statusCode r = 200
  /\ headers r = [("Content-Type", "text/plain; charset=utf-8");
                  ("Transfer-Encoding", "chunked")]
  /\ json r = None
  /\ ended r = match closing feed with NoEvent => false | _ => true end.
Proof.
  intros Hrej Hup r. subst r.
  rewrite (chat_stream_resolved cfg up body feed Hrej Hup).
  destruct (closing feed); repeat split.
Qed.

Lemma stream_response_is_plain_text_witness :
  let feed := {| emitted := ["not json at all"]; closing := EndEvent |} in
  let r := res (serve Demo.cfg (Demo.streaming feed) (PostChatStream Demo.text_only)) in
  statusCode r = 200
  /\ headers r = [("Content-Type", "text/plain; charset=utf-8");
                  ("Transfer-Encoding", "chunked")]
  /\ json r = None
  /\ ended r = match closing feed with NoEvent => false | _ => true end.
Proof.
  intros feed.
  apply (stream_response_is_plain_text Demo.cfg (Demo.streaming feed) Demo.text_only feed).
  - reflexivity.
  - intros c. reflexivity.
Defined.

(** X10: whatever makes the streaming call fail, an upstream status
    included, POST /api/chat/stream answers 500 [Stream setup failed] and
    writes nothing to the body. *)
Theorem stream_setup_failure_is_500
    (cfg : Config) (up : Upstream) (body : Body.Chat) (e : JsError) :
  rejected body = false ->
  (forall c, answer_stream up c = Reject e) ->
  let r := res (serve cfg up (PostChatStream body)) in
  statusCode r = 500
  /\ json r = Some (JObject [("error", JString "Stream setup failed")])
  /\ chunks r = []
  /\ ended r = true.
Proof.
  intros Hrej Hup r. subst r. unfold rejected in Hrej.
  unfold serve, exec, route, chat_stream, bind, try_catch. cbv zeta. rewrite Hrej.
  unfold read_config, res_setHeader, axios_post_stream, request.
  cbv beta iota. rewrite Hup. repeat split.
Qed.

Lemma stream_setup_failure_is_500_witness :
  let r := res (serve Demo.cfg (Tags.failing Tags.not_found) (PostChatStream Demo.text_only)) in
  statusCode r = 500
  /\ json r = Some (JObject [("error", JString "Stream setup failed")])
  /\ chunks r = []
  /\ ended r = true.
Proof.
  apply (stream_setup_failure_is_500 Demo.cfg (Tags.failing Tags.not_found) Demo.text_only
           Tags.not_found).
  - reflexivity.
  - intros c. reflexivity.
Defined.

(** X11: the client of POST /api/chat/stream cannot tell a transport error
    from the normal end of the stream: both leave the same response. *)
Theorem stream_error_looks_like_end
    (cfg : Config) (up_end up_error : Upstream) (body : Body.Chat)
    (arrived : list string) (error : JsError) :
  rejected body = false ->
  (forall c, answer_stream up_end c
             = Resolve {| emitted := arrived; closing := EndEvent |}) ->
  (forall c, answer_stream up_error c
             = Resolve {| emitted := arrived; closing := ErrorEvent error |}) ->
  res (serve cfg up_end (PostChatStream body))
  = res (serve cfg up_error (PostChatStream body)).
Proof.
  intros Hrej He Hx.
  rewrite (chat_stream_resolved cfg up_end body _ Hrej He).
  rewrite (chat_stream_resolved cfg up_error body _ Hrej Hx).
  reflexivity.
Qed.

Lemma stream_error_looks_like_end_witness :
  let arrived := [frames_chunk [Demo.frame "par"]; frames_chunk [Demo.frame "tial"]] in
  res (serve Demo.cfg (Demo.streaming {| emitted := arrived; closing := EndEvent |})
         (PostChatStream Demo.text_only))
  = res (serve Demo.cfg (Demo.streaming {| emitted := arrived; closing := ErrorEvent Demo.reset |})
           (PostChatStream Demo.text_only)).
Proof.
  intros arrived.
  apply (stream_error_looks_like_end Demo.cfg
           (Demo.streaming {| emitted := arrived; closing := EndEvent |})
           (Demo.streaming {| emitted := arrived; closing := ErrorEvent Demo.reset |})
           Demo.text_only arrived Demo.reset).
  - reflexivity.
  - intros c. reflexivity.
  - intros c. reflexivity.
Defined.

(** X12: the ['data'] listener never throws, whatever the chunk, and all it
    does is append texts to the body; these texts depend on the chunk alone,
    not on what was received before. *)
Theorem data_listener_only_appends (chunk : string) :
  exists texts,
    forall w, on_data chunk w = (Normal tt, with_res (push_chunks texts) w).
Proof. exists (chunk_writes chunk). apply on_data_run. Qed.

(** X13: a line that is a JSON object without [message] (the closing frame
    of a stream, for one) writes nothing and does not stop the processing of
    its chunk. *)
Theorem line_without_message_is_skipped
    (before after : list (string * string)) (line : string)
    (members : list (string * JsValue)) (w : World) :
  forallb is_frame before = true ->
  forallb is_frame after = true ->
  has_newline line = false ->
  JSON_parse line = Some (JObject members) ->
  Js.lookup "message" members = None ->
  body_text (res (exec (on_data (frames_chunk before ++ line ++ nl ++ frames_chunk after)) w))
  = body_text (res w) ++ join (deltas before) ++ join (deltas after).
Proof.
  intros Hb Ha Hn Hp Hm. rewrite on_data_body_text. f_equal.
  destruct (frames_lines before Hb) as (B1 & B2 & B3).
  destruct (frames_lines after Ha) as (A1 & A2 & A3).
  unfold chunk_writes, frames_chunk.
  rewrite (split_lines_text _ _ B1), B2, B3.
  unfold split_lines at 1. rewrite (split_lines_from_line line EmptyString _ Hn).
  rewrite <- (append_empty_r (lines_text (map fst after))).
  rewrite (split_lines_text _ EmptyString A1). simpl filter.
  rewrite (not_blank_if_json line _ Hp). simpl negb. cbv iota.
  rewrite A2. simpl lines_writes at 1.
  unfold line_outcome at 1. rewrite Hp. simpl property. rewrite Hm. simpl Js.truthy. cbv iota.
  rewrite A3. simpl. rewrite app_nil_r, join_app, !join_nonempty. reflexivity.
Qed.

Lemma line_without_message_is_skipped_witness :
  let w := start Demo.cfg Demo.down in
  let line := wire "{'model':'gemma3:1b','done':true}" in
  body_text (res (exec (on_data (frames_chunk [Demo.frame "a"] ++ line ++ nl
                                   ++ frames_chunk [Demo.frame "b"])) w))
  = body_text (res w) ++ join (deltas [Demo.frame "a"]) ++ join (deltas [Demo.frame "b"]).
Proof.
  intros w line.
  apply (line_without_message_is_skipped [Demo.frame "a"] [Demo.frame "b"] line
           [("model", JString "gemma3:1b"); ("done", JBool true)] w).
  - vm_compute. reflexivity.
  - vm_compute. reflexivity.
  - reflexivity.
  - vm_compute. reflexivity.
  - reflexivity.
Defined.

(** X14: a line that is the JSON value [null] ends the processing of its
    chunk as a line that is not JSON does: reading [data.message] throws. *)
Theorem null_line_drops_rest_of_its_chunk
    (before : list (string * string)) (line rest : string) (w : World) :
  forallb is_frame before = true ->
  has_newline line = false ->
  JSON_parse line = Some JNull ->
  body_text (res (exec (on_data (frames_chunk before ++ line ++ nl ++ rest)) w))
  = body_text (res w) ++ join (deltas before).
Proof.
  intros Hb Hn Hp. rewrite on_data_body_text. f_equal.
  destruct (frames_lines before Hb) as (B1 & B2 & B3).
  unfold chunk_writes, frames_chunk.
  rewrite (split_lines_text _ _ B1), B2, B3.
  unfold split_lines at 1. rewrite (split_lines_from_line line EmptyString _ Hn).
  simpl filter. rewrite (not_blank_if_json line _ Hp). simpl negb. cbv iota.
  simpl lines_writes. unfold line_outcome. rewrite Hp. simpl.
  now rewrite app_nil_r, join_nonempty.
Qed.

Lemma null_line_drops_rest_of_its_chunk_witness :
  let w := start Demo.cfg Demo.down in
  body_text (res (exec (on_data (frames_chunk [Demo.frame "a"] ++ "null" ++ nl
                                   ++ frames_chunk [Demo.frame "b"])) w))
  = body_text (res w) ++ join (deltas [Demo.frame "a"]).
Proof.
  intros w.
  apply (null_line_drops_rest_of_its_chunk [Demo.frame "a"] "null"
           (frames_chunk [Demo.frame "b"]) w).
  - vm_compute. reflexivity.
  - reflexivity.
  - vm_compute. reflexivity.
Defined.

(** X15: the last line of a chunk is relayed at once when it is complete
    JSON, closed by a newline or not. *)
Theorem unterminated_last_line_is_relayed
    (before : list (string * string)) (last : string * string) (w : World) :
  forallb is_frame before = true ->
  is_frame last = true ->
  body_text (res (exec (on_data (frames_chunk before ++ fst last)) w))
  = body_text (res w) ++ join (deltas before) ++ snd last.
Proof.
  intros Hb Hl. rewrite on_data_body_text. f_equal.
  destruct (frames_lines before Hb) as (B1 & B2 & B3).
  destruct (frame_outcome last Hl) as (Ln & Lb & Lo).
  unfold chunk_writes, frames_chunk.
  rewrite (split_lines_text _ _ B1), B2, B3.
  unfold split_lines. rewrite (split_lines_from_plain _ EmptyString Ln).
  simpl filter. rewrite Lb. simpl negb. cbv iota.
  simpl lines_writes. rewrite Lo, join_app, join_nonempty. f_equal.
  destruct (String.eqb_spec (snd last) EmptyString) as [->|_]; simpl;
    [reflexivity | apply append_empty_r].
Qed.

Lemma unterminated_last_line_is_relayed_witness :
  let w := start Demo.cfg Demo.down in
  body_text (res (exec (on_data (frames_chunk [Demo.frame "a"] ++ fst (Demo.frame "b"))) w))
  = body_text (res w) ++ join (deltas [Demo.frame "a"]) ++ snd (Demo.frame "b").
Proof.
  intros w.
  apply (unterminated_last_line_is_relayed [Demo.frame "a"] (Demo.frame "b") w).
  - vm_compute. reflexivity.
  - vm_compute. reflexivity.
Defined.

(** X16: for a body without images, POST /api/chat/stream and
    POST /api/chat send the same messages upstream. *)
Theorem stream_and_chat_send_same_messages
    (cfg : Config) (up up' : Upstream) (body : Body.Chat) :
  rejected body = false ->
  or_nil (Body.images body) = [] ->
  map upstream_messages (calls (serve cfg up (PostChatStream body)))
  = map upstream_messages (calls (serve cfg up' (PostChat body))).
Proof.
  intros Hrej Hi. rewrite stream_calls, Hrej, (chat_calls cfg up' body Hrej).
  unfold stream_call, chat_call, upstream_messages, stream_user_message, chat_user_message.
  rewrite Hi. reflexivity.
Qed.

Lemma stream_and_chat_send_same_messages_witness :
  map upstream_messages (calls (serve Demo.cfg Demo.down (PostChatStream Demo.with_history)))
  = map upstream_messages (calls (serve Demo.cfg (Demo.answering Tags.reply)
                                    (PostChat Demo.with_history))).
Proof.
  apply (stream_and_chat_send_same_messages Demo.cfg Demo.down (Demo.answering Tags.reply)
           Demo.with_history).
  - reflexivity.
  - reflexivity.
Defined.

(** X17: POST /api/switch-model without [model], or with an empty one, is
    answered 400 [Model name is required] and makes no upstream call. *)
Theorem switch_model_requires_a_name (cfg : Config) (up : Upstream) (field : option string) :
  given field = false ->
  let w := serve cfg up (PostSwitchModel field) in
  statusCode (res w) = 400
  /\ json (res w) = Some (JObject [("error", JString "Model name is required")])
  /\ calls w = [].
Proof.
  intros H w. subst w. unfold serve, exec, route, switch_model, try_catch, bind.
  rewrite H. repeat split.
Qed.

Lemma switch_model_requires_a_name_witness :
  let w := serve Demo.cfg Demo.down (PostSwitchModel (Some EmptyString)) in
  statusCode (res w) = 400
  /\ json (res w) = Some (JObject [("error", JString "Model name is required")])
  /\ calls w = [].
Proof.
  apply (switch_model_requires_a_name Demo.cfg Demo.down (Some EmptyString)). reflexivity.
Defined.

(** X18: when the tag list cannot be fetched, a refused connection
    included, POST /api/switch-model answers 500 [Failed to switch model]
    with the message of the error. *)
Theorem switch_model_upstream_failure_is_500
    (cfg : Config) (up : Upstream) (name : string) (e : JsError) :
  name <> EmptyString ->
  (forall c, answer up c = Reject e) ->
  let r := res (serve cfg up (PostSwitchModel (Some name))) in
  statusCode r = 500
  /\ json r = Some (JObject [("error", JString "Failed to switch model");
                             ("details", JString (Error.message e))]).
Proof.
  intros Hne Hup r. subst r.
  assert (Hg : given (Some name) = true)
    by (simpl; now apply negb_true_iff, String.eqb_neq).
  unfold serve, exec, route, switch_model, try_catch, bind. rewrite Hg.
  unfold read_config, axios_get, request. cbv beta iota delta [negb]. rewrite Hup.
  split; reflexivity.
Qed.

Lemma switch_model_upstream_failure_is_500_witness :
  let r := res (serve Demo.cfg Demo.down (PostSwitchModel (Some "llava:7b"))) in
  statusCode r = 500
  /\ json r = Some (JObject [("error", JString "Failed to switch model");
                             ("details", JString (Error.message Demo.refused))]).
Proof.
  apply (switch_model_upstream_failure_is_500 Demo.cfg Demo.down "llava:7b" Demo.refused).
  - discriminate.
  - intros c. reflexivity.
Defined.

(** X19: POST /api/switch-model accepts a model exactly when some entry of
    the upstream list has that very string as its [name]: a substring is not
    enough, and an entry without name is passed over. *)
Theorem switch_model_matches_names_exactly
    (cfg : Config) (up : Upstream) (name : string) (data : JsValue)
    (items values : list JsValue) :
  name <> EmptyString ->
  (forall c, answer up c = Resolve data) ->
  property data "models" = Some (JArray items) ->
  name_values items = Some values ->
  statusCode (res (serve cfg up (PostSwitchModel (Some name))))
  = if existsb (fun v => is_string v name) values then 200 else 404.
Proof.
  intros Hne Hup Hm Hv.
  assert (Hl : lists data name = Some (existsb (fun v => is_string v name) values)).
  { unfold lists. rewrite Hm. simpl. now apply names_model_values. }
  rewrite (switch_model_run cfg up name data _ Hne (Hup _) Hl). simpl.
  destruct (existsb _ values); reflexivity.
Qed.

Lemma switch_model_matches_names_exactly_witness :
  statusCode (res (serve Demo.cfg
                     (Demo.answering (Tags.listing [Tags.gemma; Tags.unnamed; Tags.llava]))
                     (PostSwitchModel (Some "llava"))))
  = if existsb (fun v => is_string v "llava")
         [JString "gemma3:1b"; JUndefined; JString "llava:7b"]
    then 200 else 404.
Proof.
  apply (switch_model_matches_names_exactly Demo.cfg
           (Demo.answering (Tags.listing [Tags.gemma; Tags.unnamed; Tags.llava])) "llava"
           (Tags.listing [Tags.gemma; Tags.unnamed; Tags.llava])
           [Tags.gemma; Tags.unnamed; Tags.llava]).
  - discriminate.
  - intros c. reflexivity.
  - reflexivity.
  - reflexivity.
Defined.

(** X20: when the tag list cannot be fetched, GET /api/check-ollama answers
    500 with [ollama_status: 'not_available'] and GET /api/model-info 500
    [Failed to get model info], each with the message of the error. *)
Theorem tags_unreachable_is_500 (cfg : Config) (up : Upstream) (e : JsError) :
  (forall c, answer up c = Reject e) ->
  let checked := res (exec check_ollama (start cfg up)) in
  let info := res (exec model_info (start cfg up)) in
  statusCode checked = 500
  /\ json checked = Some (JObject [("ollama_status", JString "not_available");
                                   ("error", JString (Error.message e))])
  /\ statusCode info = 500
  /\ json info = Some (JObject [("error", JString "Failed to get model info");
                                ("details", JString (Error.message e))]).
Proof.
  intros Hup checked info. subst checked info.
  unfold exec, check_ollama, model_info, try_catch, bind, read_config, axios_get, request.
  cbv beta iota. rewrite !Hup. repeat split.
Qed.

Lemma tags_unreachable_is_500_witness :
  let checked := res (exec check_ollama (start Demo.cfg Demo.down)) in
  let info := res (exec model_info (start Demo.cfg Demo.down)) in
  statusCode checked = 500
  /\ json checked = Some (JObject [("ollama_status", JString "not_available");
                                   ("error", JString (Error.message Demo.refused))])
  /\ statusCode info = 500
  /\ json info = Some (JObject [("error", JString "Failed to get model info");
                                ("details", JString (Error.message Demo.refused))]).
Proof.
  apply (tags_unreachable_is_500 Demo.cfg Demo.down Demo.refused).
  intros c. reflexivity.
Defined.

(** X21: for an upstream list whose entries all have a string [name],
    GET /api/check-ollama answers the names in upstream order, and
    [gemma_model_available] tells whether one of them contains [gemma3:1b]. *)
Theorem check_ollama_lists_names
    (cfg : Config) (up : Upstream) (data : JsValue)
    (items : list JsValue) (names : list string) :
  (forall c, answer up c = Resolve data) ->
  property data "models" = Some (JArray items) ->
  name_values items = Some (map JString names) ->
  let r := res (exec check_ollama (start cfg up)) in
  statusCode r = 200
  /\ json r
     = Some (JObject [("ollama_status", JString "running");
                      ("gemma_model_available",
                       JBool (existsb (fun n => includes n "gemma3:1b") names));
                      ("available_models", JArray (map JString names));
                      ("supports_images", JBool true)]).
Proof.
  intros Hup Hm Hv r. subst r.
  destruct (find_item_named "gemma3:1b" items names (asked cfg up) Hv) as (found & Hf & Ht).
  unfold exec, check_ollama.
  erewrite try_catch_normal.
  2:{ eapply bind_step; [reflexivity|]. cbv beta.
      eapply bind_step; [apply tags_resolved, Hup|]. cbv beta.
      eapply bind_step; [unfold get; rewrite Hm; reflexivity|]. cbv beta zeta. simpl Js.truthy.
      cbv iota.
      eapply bind_step; [exact Hf|]. cbv beta.
      eapply bind_step; [exact (map_items_names items _ _ Hv)|]. cbv beta.
      reflexivity. }
  rewrite Ht. split; reflexivity.
Qed.

Lemma check_ollama_lists_names_witness :
  let r := res (exec check_ollama
                  (start Demo.cfg (Demo.answering (Tags.listing [Tags.llava; Tags.gemma])))) in
  statusCode r = 200
  /\ json r
     = Some (JObject [("ollama_status", JString "running");
                      ("gemma_model_available",
                       JBool (existsb (fun n => includes n "gemma3:1b")
                                ["llava:7b"; "gemma3:1b"]));
                      ("available_models", JArray (map JString ["llava:7b"; "gemma3:1b"]));
                      ("supports_images", JBool true)]).
Proof.
  apply (check_ollama_lists_names Demo.cfg
           (Demo.answering (Tags.listing [Tags.llava; Tags.gemma]))
           (Tags.listing [Tags.llava; Tags.gemma]) [Tags.llava; Tags.gemma]
           ["llava:7b"; "gemma3:1b"]).
  - intros c. reflexivity.
  - reflexivity.
  - reflexivity.
Defined.

(** X22: for an upstream list whose entries all have a string [name],
    GET /api/model-info answers one entry per upstream entry, in order, with
    its name, size and modification date, and with [supports_images] and
    [is_multimodal] both equal to the test POST /api/switch-model reports for
    that name. *)
Theorem model_info_describes_entries
    (cfg : Config) (up : Upstream) (data : JsValue)
    (items : list JsValue) (names : list string) :
  (forall c, answer up c = Resolve data) ->
  property data "models" = Some (JArray items) ->
  name_values items = Some (map JString names) ->
  let r := res (exec model_info (start cfg up)) in
  statusCode r = 200
  /\ json r
     = Some (JObject
               [("current_model", JString (MODEL_NAME cfg));
                ("available_models",
                 JArray (map (fun entry => info_entry (fst entry) (snd entry))
                           (combine items names)));
                ("current_supports_images", JBool (supports_images (MODEL_NAME cfg)))]).
Proof.
  intros Hup Hm Hv r. subst r.
  unfold exec, model_info. fold describe.
  erewrite try_catch_normal.
  2:{ eapply bind_step; [reflexivity|]. cbv beta.
      eapply bind_step; [apply tags_resolved, Hup|]. cbv beta.
      eapply bind_step; [unfold get; rewrite Hm; reflexivity|]. cbv beta zeta. simpl Js.truthy.
      cbv iota.
      eapply bind_step; [exact (map_items_describe items names _ Hv)|]. cbv beta.
      reflexivity. }
  split; reflexivity.
Qed.

Lemma model_info_describes_entries_witness :
  let r := res (exec model_info
                  (start Demo.cfg (Demo.answering (Tags.listing [Tags.llava; Tags.gemma])))) in
  statusCode r = 200
  /\ json r
     = Some (JObject
               [("current_model", JString (MODEL_NAME Demo.cfg));
                ("available_models",
                 JArray (map (fun entry => info_entry (fst entry) (snd entry))
                           (combine [Tags.llava; Tags.gemma] ["llava:7b"; "gemma3:1b"])));
                ("current_supports_images", JBool (supports_images (MODEL_NAME Demo.cfg)))]).
Proof.
  apply (model_info_describes_entries Demo.cfg
           (Demo.answering (Tags.listing [Tags.llava; Tags.gemma]))
           (Tags.listing [Tags.llava; Tags.gemma]) [Tags.llava; Tags.gemma]
           ["llava:7b"; "gemma3:1b"]).
  - intros c. reflexivity.
  - reflexivity.
  - reflexivity.
Defined.

(** X23: one upstream entry without [name] makes GET /api/model-info fail
    as a whole, 500 [Failed to get model info]. *)
Theorem model_info_needs_every_name
    (cfg : Config) (up : Upstream) (data : JsValue)
    (items : list JsValue) (members : list (string * JsValue)) :
  (forall c, answer up c = Resolve data) ->
  property data "models" = Some (JArray items) ->
  In (JObject members) items ->
  Js.lookup "name" members = None ->
  let r := res (exec model_info (start cfg up)) in
  statusCode r = 500
  /\ exists details,
       json r = Some (JObject [("error", JString "Failed to get model info");
                               ("details", JString details)]).
Proof.
  intros Hup Hm Hin Hn r. subst r.
  destruct (map_items_describe_unnamed items members (asked cfg up) Hin Hn) as [e He].
  unfold exec, model_info. fold describe.
  erewrite try_catch_thrown.
  2:{ eapply bind_step; [reflexivity|]. cbv beta.
      eapply bind_step; [apply tags_resolved, Hup|]. cbv beta.
      eapply bind_step; [unfold get; rewrite Hm; reflexivity|]. cbv beta zeta. simpl Js.truthy.
      cbv iota.
      apply bind_thrown. exact He. }
  split; [reflexivity | eexists; reflexivity].
Qed.

Lemma model_info_needs_every_name_witness :
  let r := res (exec model_info
                  (start Demo.cfg (Demo.answering (Tags.listing [Tags.gemma; Tags.unnamed])))) in
  statusCode r = 500
  /\ exists details,
       json r = Some (JObject [("error", JString "Failed to get model info");
                               ("details", JString details)]).
Proof.
  apply (model_info_needs_every_name Demo.cfg
           (Demo.answering (Tags.listing [Tags.gemma; Tags.unnamed]))
           (Tags.listing [Tags.gemma; Tags.unnamed]) [Tags.gemma; Tags.unnamed]
           [("size", JNumber 1 0)]).
  - intros c. reflexivity.
  - reflexivity.
  - right. left. reflexivity.
  - reflexivity.
Defined.

(** X24: an upstream reply whose [models] is absent, [null] or otherwise
    falsy is read as an empty list: /api/check-ollama and /api/model-info
    list nothing, and /api/switch-model finds no model. *)
Theorem missing_model_list_is_empty
    (cfg : Config) (up : Upstream) (data listed : JsValue) (name : string) :
  (forall c, answer up c = Resolve data) ->
  property data "models" = Some listed ->
  Js.truthy listed = false ->
  name <> EmptyString ->
  json (res (exec check_ollama (start cfg up)))
  = Some (JObject [("ollama_status", JString "running");
                   ("gemma_model_available", JBool false);
                   ("available_models", JArray []);
                   ("supports_images", JBool true)])
  /\ json (res (exec model_info (start cfg up)))
     = Some (JObject [("current_model", JString (MODEL_NAME cfg));
                      ("available_models", JArray []);
                      ("current_supports_images", JBool (supports_images (MODEL_NAME cfg)))])
  /\ statusCode (res (serve cfg up (PostSwitchModel (Some name)))) = 404.
Proof.
  intros Hup Hm Ht Hne. repeat split.
  - unfold exec, check_ollama.
    erewrite try_catch_normal.
    2:{ eapply bind_step; [reflexivity|]. cbv beta.
        eapply bind_step; [apply tags_resolved, Hup|]. cbv beta.
        eapply bind_step; [unfold get; rewrite Hm; reflexivity|]. cbv beta zeta. rewrite Ht.
        reflexivity. }
    reflexivity.
  - unfold exec, model_info.
    erewrite try_catch_normal.
    2:{ eapply bind_step; [reflexivity|]. cbv beta.
        eapply bind_step; [apply tags_resolved, Hup|]. cbv beta.
        eapply bind_step; [unfold get; rewrite Hm; reflexivity|]. cbv beta zeta. rewrite Ht.
        reflexivity. }
    reflexivity.
  - assert (Hl : lists data name = Some false) by (unfold lists; now rewrite Hm, Ht).
    now rewrite (switch_model_run cfg up name data false Hne (Hup _) Hl).
Qed.

Lemma missing_model_list_is_empty_witness :
  let up := Demo.answering (JObject [("models", JNull)]) in
  json (res (exec check_ollama (start Demo.cfg up)))
  = Some (JObject [("ollama_status", JString "running");
                   ("gemma_model_available", JBool false);
                   ("available_models", JArray []);
                   ("supports_images", JBool true)])
  /\ json (res (exec model_info (start Demo.cfg up)))
     = Some (JObject [("current_model", JString (MODEL_NAME Demo.cfg));
                      ("available_models", JArray []);
                      ("current_supports_images",
                       JBool (supports_images (MODEL_NAME Demo.cfg)))])
  /\ statusCode (res (serve Demo.cfg up (PostSwitchModel (Some "gemma3:1b")))) = 404.
Proof.
  intros up.
  apply (missing_model_list_is_empty Demo.cfg up (JObject [("models", JNull)]) JNull "gemma3:1b").
  - intros c. reflexivity.
  - reflexivity.
  - reflexivity.
  - discriminate.
Defined.

(** X25: the model name and the upstream address are never empty: an
    environment variable that is unset or empty gives way to the default. *)
Theorem configuration_is_never_empty (env : string -> option string) :
  MODEL_NAME (load_config env) <> EmptyString
  /\ OLLAMA_BASE_URL (load_config env) <> EmptyString.
Proof.
  unfold load_config, env_or; simpl. split.
  - destruct (env "MODEL_NAME") as [v|]; [|discriminate].
    destruct (String.eqb_spec v EmptyString); [discriminate | assumption].
  - destruct (env "OLLAMA_BASE_URL") as [v|]; [|discriminate].
    destruct (String.eqb_spec v EmptyString); [discriminate | assumption].
Qed.

(** X26: the test for [bakllava] never changes the answer of the
    image-support check: a name containing it contains [llava]. *)
Theorem bakllava_test_is_redundant (model : string) :
  supports_images model = includes model "llava" || includes model "vision".
Proof.
  unfold supports_images.
  destruct (includes model "llava") eqn:L; [reflexivity|].
  destruct (includes model "bakllava") eqn:B; [|reflexivity].
  rewrite (bakllava_has_llava model B) in L. discriminate.
Qed.
